(** * foreman_ptable: the reconciliation routine of the Foreman partition
    table module, embedded from [src/foreman_ptable.py].

    The module's [ensure] looks a partition table up by name on a Foreman
    server and creates, updates, deletes or leaves it.  The Foreman client
    ([theforeman]) and the file system are collaborators of the module: they
    are parameters of the embedding, and so is what the framework object
    ([module]) and the interpreter make of two calls of the source that depend
    on their version.  Every call the routine issues is recorded, in the order
    of issue, next to the outcome of the run. *)

From Stdlib Require Import ZArith Bool List Lia.
From stdpp Require Import base option list strings gmap.

Local Open Scope Z_scope.
Local Open Scope string_scope.
Local Open Scope list_scope.

(** ** Python values *)

(** The values that travel between the module and the client: [None],
    strings, integers and lists (the list of location ids). *)
#[warnings="-register-all"]
Inductive value : Type :=
| VNone
| VStr (s : string)
| VInt (n : Z)
| VList (l : list value).

(** Python's [==] on these values. *)
Fixpoint value_eqb (a b : value) {struct a} : bool :=
  match a, b with
  | VNone, VNone => true
  | VStr s, VStr t => String.eqb s t
  | VInt n, VInt m => Z.eqb n m
  | VList l, VList m =>
      (fix all2 (l m : list value) {struct l} : bool :=
         match l, m with
         | [], [] => true
         | x :: l', y :: m' => value_eqb x y && all2 l' m'
         | _, _ => false
         end) l m
  | _, _ => false
  end.

(** A Python dict with string keys: the request payload [data], and the
    records the server answers with. *)
Abbreviation dict := (gmap string value).

(** [d.get(k)]: the value at [k], [None] when the key is missing. *)
Definition py_get (d : dict) (k : string) : value := default VNone (d !! k).

(** Truth value of a string parameter ([None] and [''] are false). *)
Definition truthy_str (o : option string) : bool :=
  match o with
  | Some s => negb (String.eqb s "")
  | None => false
  end.

(** Truth value of a list parameter ([None] and [[]] are false). *)
Definition truthy_list {A : Type} (o : option (list A)) : bool :=
  match o with
  | Some (_ :: _) => true
  | _ => false
  end.

(** Truth value of a search result ([None] and [{}] are false). *)
Definition truthy_dict (o : option dict) : bool :=
  match o with
  | Some d => negb (bool_decide (d = ∅))
  | None => false
  end.

(** A string parameter as a value: [None] when it was omitted. *)
Definition of_param (o : option string) : value :=
  match o with
  | Some s => VStr s
  | None => VNone
  end.

(** ** Module parameters ([module.params]) *)

Inductive state_choice : Type := present | absent.

Definition is_present (s : state_choice) : bool :=
  match s with present => true | absent => false end.

Definition is_absent (s : state_choice) : bool :=
  match s with present => false | absent => true end.

Record params : Type := Params {
  name : string;
  layout : option string;
  state : state_choice;
  os_family : option string;
  template_file : option string;
  locations : option (list string)
}.

(** ** The collaborators *)

(** What a client call gives back: a result, or a [ForemanError] with its
    message. *)
Inductive response (A : Type) : Type :=
| Ok (a : A)
| ForemanError (message : string).
Arguments Ok {A} a.
Arguments ForemanError {A} message.

(** What [open(path).read()] gives back: the contents, or an [IOError].  Of
    the exception the source reads the attribute [message] (line 134):
    exceptions have it on Python 2, where it is the empty string for the
    errors of [open], and have none on Python 3.  [class_name] is the class of
    the exception, which the interpreter names when the attribute is
    missing. *)
Inductive read_result : Type :=
| Contents (s : string)
| IOError (class_name : string) (message : option string).

(** The framework object [module].  [module.fail_json(msg=text)] ends the
    process in a failure with the message [text].  The source also calls
    [module.fail_json(text)], the message given by position (lines 98 and
    101): what the process then ends with is the framework's.  Under
    [fail_json(self, msg, **kwargs)], of ansible-core 2.10 and later, it is the
    same failure; under [fail_json(self, **kwargs)], of Ansible 2.0 to 2.9, the
    call raises a [TypeError] that nothing catches.  [by_position] gives the
    message the process ends with. *)
Record AnsibleModule : Type := {
  by_position : string -> string
}.

(** The Foreman client over a remote store of type [W].  The searches and
    the fetch read the store; create, update and delete give back the store
    they leave, also when they raise. *)
Record Foreman (W : Type) : Type := {
  search_location : dict -> W -> response (option dict);
  search_partition_table : dict -> W -> response (option dict);
  get_partition_table : value -> W -> response dict;
  create_partition_table : dict -> W -> response dict * W;
  update_partition_table : value -> dict -> W -> response dict * W;
  delete_partition_table : value -> W -> response dict * W
}.
Arguments search_location {W} _ _ _.
Arguments search_partition_table {W} _ _ _.
Arguments get_partition_table {W} _ _ _.
Arguments create_partition_table {W} _ _ _.
Arguments update_partition_table {W} _ _ _ _.
Arguments delete_partition_table {W} _ _ _.

(** The calls the routine issues. *)
Inductive call : Type :=
| SearchPartitionTable (data : dict)
| SearchLocation (data : dict)
| OpenFile (path : string)
| GetPartitionTable (id : value)
| CreatePartitionTable (data : dict)
| UpdatePartitionTable (id : value) (data : dict)
| DeletePartitionTable (id : value).

Definition is_mutation (c : call) : bool :=
  match c with
  | CreatePartitionTable _ | UpdatePartitionTable _ _ | DeletePartitionTable _ => true
  | _ => false
  end.

Definition is_remote (c : call) : bool :=
  match c with
  | OpenFile _ => false
  | _ => true
  end.

Definition is_lookup (c : call) : bool :=
  match c with
  | SearchPartitionTable _ | SearchLocation _ => true
  | _ => false
  end.

(** ** The monad of the routine *)

(** A run ends by returning, or in a failure that leaves the process, with
    its message: that of [module.fail_json], or the text of an exception that
    nothing catches. *)
Inductive outcome (A : Type) : Type :=
| Returned (a : A)
| fail_json (msg : string).
Arguments Returned {A} a.
Arguments fail_json {A} msg.

(** A computation takes the remote store and gives its outcome, the store it
    leaves and the calls it issued, oldest first. *)
Definition M (W A : Type) : Type := W -> outcome A * W * list call.

Definition ret {W A : Type} (a : A) : M W A := fun w => (Returned a, w, []).

Definition fail {W A : Type} (msg : string) : M W A := fun w => (fail_json msg, w, []).

Definition bind {W A B : Type} (m : M W A) (f : A -> M W B) : M W B :=
  fun w =>
    let '(o, w1, t1) := m w in
    match o with
    | Returned a => let '(o', w2, t2) := f a w1 in (o', w2, (t1 ++ t2)%list)
    | fail_json msg => (fail_json msg, w1, t1)
    end.

Notation "'let*' x := m 'in' k" := (bind m (fun x => k))
  (at level 10, x name, m at level 100, k at level 200).

(** A call that reads the store. *)
Definition reading {W A : Type} (c : call) (f : W -> response A) : M W (response A) :=
  fun w => (Returned (f w), w, [c]).

(** A call that may change the store. *)
Definition mutating {W A : Type} (c : call) (f : W -> response A * W) : M W (response A) :=
  fun w => (Returned (fst (f w)), snd (f w), [c]).

(** [try: ... except ForemanError as e: module.fail_json(msg=prefix + e.message)] *)
Definition or_fail {W A : Type} (m : M W (response A)) (prefix : string) : M W A :=
  let* r := m in
  match r with
  | Ok a => ret a
  | ForemanError message => fail (prefix +:+ message)
  end.

Section Module.

Context {W : Type}.
Variable module : AnsibleModule.
Variable theforeman : Foreman W.
Variable open_read : string -> read_result.

(** [e.message] of the [IOError] [e], within
    ['Could not open file {0}: {1}'.format(template_file, e.message)]. *)
Definition could_not_open (path class_name : string) (message : option string) : string :=
  match message with
  | Some text => "Could not open file " +:+ path +:+ ": " +:+ text
  | None =>
      "AttributeError: '" +:+ class_name +:+ "' object has no attribute 'message'"
  end.

(** [with open(path) as f: f.read()], a call that touches no store. *)
Definition opening (path : string) : M W read_result :=
  fun w => (Returned (open_read path), w, [OpenFile path]).

(** [get_location_ids(module, theforeman, locations)], lines 92-102.  The
    loop runs over [locations] with the list [result] built so far.
    [module.fail_json] leaves the process: the [except ForemanError] around
    the body does not catch it, nor the [TypeError] of a framework that takes
    no message by position. *)
Fixpoint get_location_ids_from (result : list value) (locations : list string)
  : M W (list value) :=
  match locations with
  | [] => ret result
  | loc :: rest =>
      let data : dict := {[ "name" := VStr loc ]} in
      let* r := reading (SearchLocation data) (search_location theforeman data) in
      match r with
      | Ok location =>
          if negb (truthy_dict location)
          then fail (by_position module ("Could not find Location " +:+ loc))
          else
            get_location_ids_from
              (result ++ [py_get (default ∅ location) "id"])%list rest
      | ForemanError message =>
          fail (by_position module ("Could not get Locations: " +:+ message))
      end
  end.

Definition get_location_ids (locations : list string) : M W (list value) :=
  get_location_ids_from [] locations.

(** [ensure()], lines 105-165. *)
Definition ensure (p : params) : M W (bool * option dict) :=
  let data : dict := {[ "name" := VStr (name p) ]} in
  let* ptable := or_fail
    (reading (SearchPartitionTable data) (search_partition_table theforeman data))
    "Could not get partition table: " in
  let* data :=
    (if truthy_list (locations p)
     then
       let* ids := get_location_ids (default [] (locations p)) in
       ret (<[ "location_ids" := VList ids ]> data)
     else ret data) in
  let* data :=
    (if negb (truthy_str (layout p)) && negb (truthy_str (template_file p))
     then fail "Either layout or template_file must be defined"
     else if truthy_str (layout p) && truthy_str (template_file p)
     then fail "Only one of either layout or template_file must be defined"
     else if truthy_str (layout p)
     then ret (<[ "layout" := of_param (layout p) ]> data)
     else
       let path := default "" (template_file p) in
       let* f := opening path in
       match f with
       | Contents s => ret (<[ "layout" := VStr s ]> data)
       | IOError class_name message => fail (could_not_open path class_name message)
       end) in
  let data := <[ "os_family" := of_param (os_family p) ]> data in
  if negb (truthy_dict ptable) && is_present (state p)
  then
    let* ptable := or_fail
      (mutating (CreatePartitionTable data) (create_partition_table theforeman data))
      "Could not create partition table: " in
    ret (true, Some ptable)
  else if truthy_dict ptable && is_absent (state p)
  then
    let id := py_get (default ∅ ptable) "id" in
    let* ptable := or_fail
      (mutating (DeletePartitionTable id) (delete_partition_table theforeman id))
      "Could not delete partition table: " in
    ret (true, Some ptable)
  else if truthy_dict ptable && is_present (state p)
  then
    let id := py_get (default ∅ ptable) "id" in
    let* ptable := or_fail
      (reading (GetPartitionTable id) (get_partition_table theforeman id))
      "Could not get partition table to update: " in
    if value_eqb (py_get ptable "layout") (of_param (layout p))
       || value_eqb (py_get ptable "layout") (py_get data "layout")
    then ret (false, Some ptable)
    else
      let id := py_get ptable "id" in
      let* ptable := or_fail
        (mutating (UpdatePartitionTable id data) (update_partition_table theforeman id data))
        "Could not update partition table: " in
      ret (true, Some ptable)
  else ret (false, ptable).

(** The four steps of [ensure] in the order of the source.  [ensure] is
    their sequence ([ensure_steps] below). *)

(** Lines 113-118: the search by name. *)
Definition find_ptable (p : params) : M W (option dict) :=
  let data : dict := {[ "name" := VStr (name p) ]} in
  or_fail
    (reading (SearchPartitionTable data) (search_partition_table theforeman data))
    "Could not get partition table: ".

(** Lines 120-121: the location ids. *)
Definition with_locations (p : params) (data : dict) : M W dict :=
  if truthy_list (locations p)
  then
    let* ids := get_location_ids (default [] (locations p)) in
    ret (<[ "location_ids" := VList ids ]> data)
  else ret data.

(** Lines 123-134: the layout. *)
Definition with_layout (p : params) (data : dict) : M W dict :=
  if negb (truthy_str (layout p)) && negb (truthy_str (template_file p))
  then fail "Either layout or template_file must be defined"
  else if truthy_str (layout p) && truthy_str (template_file p)
  then fail "Only one of either layout or template_file must be defined"
  else if truthy_str (layout p)
  then ret (<[ "layout" := of_param (layout p) ]> data)
  else
    let path := default "" (template_file p) in
    let* f := opening path in
    match f with
    | Contents s => ret (<[ "layout" := VStr s ]> data)
    | IOError class_name message => fail (could_not_open path class_name message)
    end.

(** Lines 137-165: the decision. *)
Definition decide_action (p : params) (ptable : option dict) (data : dict)
  : M W (bool * option dict) :=
  if negb (truthy_dict ptable) && is_present (state p)
  then
    let* ptable := or_fail
      (mutating (CreatePartitionTable data) (create_partition_table theforeman data))
      "Could not create partition table: " in
    ret (true, Some ptable)
  else if truthy_dict ptable && is_absent (state p)
  then
    let id := py_get (default ∅ ptable) "id" in
    let* ptable := or_fail
      (mutating (DeletePartitionTable id) (delete_partition_table theforeman id))
      "Could not delete partition table: " in
    ret (true, Some ptable)
  else if truthy_dict ptable && is_present (state p)
  then
    let id := py_get (default ∅ ptable) "id" in
    let* ptable := or_fail
      (reading (GetPartitionTable id) (get_partition_table theforeman id))
      "Could not get partition table to update: " in
    if value_eqb (py_get ptable "layout") (of_param (layout p))
       || value_eqb (py_get ptable "layout") (py_get data "layout")
    then ret (false, Some ptable)
    else
      let id := py_get ptable "id" in
      let* ptable := or_fail
        (mutating (UpdatePartitionTable id data) (update_partition_table theforeman id data))
        "Could not update partition table: " in
      ret (true, Some ptable)
  else ret (false, ptable).

(** ** What the claims speak of *)

(** The layout the descriptor asks for: the literal when [layout] alone is
    given, the contents of the file when [template_file] alone is given and
    can be read.  A descriptor is accepted by the validation of lines
    123-134 exactly when this is defined. *)
Definition resolved_layout (p : params) : option string :=
  if truthy_str (layout p)
  then (if truthy_str (template_file p) then None else layout p)
  else if truthy_str (template_file p)
  then match open_read (default "" (template_file p)) with
       | Contents s => Some s
       | IOError _ _ => None
       end
  else None.

(** The file the validation reads, if any. *)
Definition layout_reads (p : params) : list call :=
  if negb (truthy_str (layout p)) && truthy_str (template_file p)
  then [OpenFile (default "" (template_file p))]
  else [].

(** The message of the failed validation. *)
Definition validation_message (p : params) : string :=
  if truthy_str (layout p)
  then "Only one of either layout or template_file must be defined"
  else "Either layout or template_file must be defined".

(** The message of a descriptor whose layout does not resolve: that of the
    validation, or that of the file that cannot be read. *)
Definition layout_failure (p : params) : string :=
  if Bool.eqb (truthy_str (layout p)) (truthy_str (template_file p))
  then validation_message p
  else
    let path := default "" (template_file p) in
    match open_read path with
    | Contents _ => ""
    | IOError class_name message => could_not_open path class_name message
    end.

(** The request of the search by name, the first value of [data]. *)
Definition named (p : params) : dict := {[ "name" := VStr (name p) ]}.

(** A location the client resolves in the store [w]. *)
Definition location_request (loc : string) : dict := {[ "name" := VStr loc ]}.

Definition resolved (w : W) (loc : string) : bool :=
  match search_location theforeman (location_request loc) w with
  | Ok location => truthy_dict location
  | ForemanError _ => false
  end.

(** A location the client answers for without finding it. *)
Definition unresolved (w : W) (loc : string) : bool :=
  match search_location theforeman (location_request loc) w with
  | Ok location => negb (truthy_dict location)
  | ForemanError _ => false
  end.

Definition location_id (w : W) (loc : string) : value :=
  match search_location theforeman (location_request loc) w with
  | Ok (Some location) => py_get location "id"
  | _ => VNone
  end.

Definition location_lookups (locs : list string) : list call :=
  map (fun loc => SearchLocation (location_request loc)) locs.

(** The payload [data] of a descriptor whose layout resolves to [L]. *)
Definition payload (p : params) (w : W) (L : string) : dict :=
  let data : dict := {[ "name" := VStr (name p) ]} in
  let data : dict :=
    if truthy_list (locations p)
    then <[ "location_ids" := VList (map (location_id w) (default [] (locations p))) ]> data
    else data in
  <[ "os_family" := of_param (os_family p) ]> (<[ "layout" := VStr L ]> data).

End Module.

(** ** A reference store *)

(** Modelled from the spec: the remote store behind the client, which is not
    part of the module.  Section 3 of the specification gives a remote
    resource an id, a name, a layout, an os-family and a list of location ids,
    with the name as its natural key; section 6 gives the six calls.  The
    store keeps the partition tables and the locations as lists of records. *)
Module Store.

Record store : Type := {
  ptables : list dict;
  location_table : list dict
}.

Definition has (k : string) (v : value) (r : dict) : bool :=
  value_eqb (py_get r k) v.

(** An id no record of the list carries. *)
Definition fresh_id (l : list dict) : Z :=
  1 + fold_right
        (fun r m => match py_get r "id" with VInt n => Z.max n m | _ => m end)
        0 l.

(** Replace the first record that satisfies [f]. *)
Fixpoint replace_first (f : dict -> bool) (r' : dict) (l : list dict) : list dict :=
  match l with
  | [] => []
  | r :: l' => if f r then r' :: l' else r :: replace_first f r' l'
  end.

(** Drop the first record that satisfies [f]. *)
Fixpoint remove_first (f : dict -> bool) (l : list dict) : list dict :=
  match l with
  | [] => []
  | r :: l' => if f r then l' else r :: remove_first f l'
  end.

Definition not_found {A : Type} : response A := ForemanError "Resource not found".

Definition client : Foreman store := {|
  search_location := fun data s =>
    Ok (find (has "name" (py_get data "name")) (location_table s));
  search_partition_table := fun data s =>
    Ok (find (has "name" (py_get data "name")) (ptables s));
  get_partition_table := fun id s =>
    match find (has "id" id) (ptables s) with
    | Some r => Ok r
    | None => not_found
    end;
  create_partition_table := fun data s =>
    let r := <[ "id" := VInt (fresh_id (ptables s)) ]> data in
    (Ok r, {| ptables := ptables s ++ [r]; location_table := location_table s |});
  update_partition_table := fun id data s =>
    match find (has "id" id) (ptables s) with
    | Some r =>
        let r' := data ∪ r in
        (Ok r', {| ptables := replace_first (has "id" id) r' (ptables s);
                   location_table := location_table s |})
    | None => (not_found, s)
    end;
  delete_partition_table := fun id s =>
    match find (has "id" id) (ptables s) with
    | Some r =>
        (Ok r, {| ptables := remove_first (has "id" id) (ptables s);
                  location_table := location_table s |})
    | None => (not_found, s)
    end
|}.

(** A file system with no file, on Python 2. *)
Definition no_file (path : string) : read_result :=
  IOError "IOError" (Some "").

End Store.


(** ** Reading a run *)

Definition outcome_of {W A : Type} (r : outcome A * W * list call) : outcome A := r.1.1.
Definition store_of {W A : Type} (r : outcome A * W * list call) : W := r.1.2.
Definition calls_of {W A : Type} (r : outcome A * W * list call) : list call := r.2.

Definition mutations (tr : list call) : list call := filter (fun c => is_mutation c = true) tr.

(** The outcome of a run that ends in a create, an update or a delete: the
    answer of the server, or the failure that wraps its error. *)
Definition changed_or_fail (prefix : string) (r : response dict)
  : outcome (bool * option dict) :=
  match r with
  | Ok ptable => Returned (true, Some ptable)
  | ForemanError message => fail_json (prefix +:+ message)
  end.

(** The payload of a create or an update. *)
Definition payload_of (c : call) : option dict :=
  match c with
  | CreatePartitionTable data | UpdatePartitionTable _ data => Some data
  | _ => None
  end.

(** The step of the routine a call belongs to, in the order of the source. *)
Definition step_of (c : call) : nat :=
  match c with
  | SearchPartitionTable _ => 0
  | SearchLocation _ => 1
  | OpenFile _ => 2
  | _ => 3
  end%nat.

(** The step of a call in the order the specification gives. *)
Definition spec_step_of (c : call) : nat :=
  match c with
  | OpenFile _ => 0
  | SearchLocation _ => 1
  | SearchPartitionTable _ => 2
  | _ => 3
  end%nat.

(** The calls come in the order of their steps. *)
Fixpoint in_order (step : call -> nat) (tr : list call) : bool :=
  match tr with
  | [] => true
  | c :: tr' =>
      forallb (fun c' => (step c <=? step c')%nat) tr' && in_order step tr'
  end.

(** The names and the ids of the partition tables of a store are keys: no two
    records share one (section 3 of the specification: the name is the
    natural key, the id the identifier of a record). *)
Definition well_keyed (s : Store.store) : Prop :=
  NoDup (map (fun r => py_get r "name") (Store.ptables s))
  /\ NoDup (map (fun r => py_get r "id") (Store.ptables s)).

(** ** Concrete descriptors and stores *)

Definition freebsd : params :=
  {| name := "FreeBSD"; layout := Some "zfs on root"; state := present;
     os_family := Some "FreeBSD"; template_file := None; locations := None |}.

Definition empty_store : Store.store := {| Store.ptables := []; Store.location_table := [] |}.

(** A store with the location [HQ] and the given partition tables. *)
Definition hq_store (l : list dict) : Store.store :=
  {| Store.ptables := l;
     Store.location_table := [ {[ "id" := VInt 7; "name" := VStr "HQ" ]} ] |}.

(** A file system with the one file [/etc/ptable]. *)
Definition one_file (path : string) : read_result :=
  if String.eqb path "/etc/ptable"
  then Contents "zfs on root"
  else IOError "IOError" (Some "").

(** A descriptor with neither [layout] nor [template_file], at [HQ]. *)
Definition neither_at_hq : params :=
  {| name := "FreeBSD"; layout := None; state := present;
     os_family := None; template_file := None; locations := Some ["HQ"] |}.

(** A descriptor whose layout comes from the file, at [HQ]. *)
Definition from_file_at_hq : params :=
  {| name := "FreeBSD"; layout := None; state := present;
     os_family := None; template_file := Some "/etc/ptable"; locations := Some ["HQ"] |}.

(** A descriptor whose layout comes from the file. *)
Definition from_file : params :=
  {| name := "FreeBSD"; layout := None; state := present;
     os_family := None; template_file := Some "/etc/ptable"; locations := None |}.

(** The same with an empty [layout] next to the file. *)
Definition from_file_empty_layout : params :=
  {| name := "FreeBSD"; layout := Some ""; state := present;
     os_family := None; template_file := Some "/etc/ptable"; locations := None |}.

(** The descriptor that asks for the absence of [FreeBSD] by its name. *)
Definition absent_by_name : params :=
  {| name := "FreeBSD"; layout := None; state := absent;
     os_family := None; template_file := None; locations := None |}.

(** The same with a layout. *)
Definition absent_with_layout : params :=
  {| name := "FreeBSD"; layout := Some "zfs on root"; state := absent;
     os_family := None; template_file := None; locations := None |}.

(** Stored records of [FreeBSD]: with a layout, and with a null layout. *)
Definition stored (l : string) : dict :=
  {[ "id" := VInt 1; "name" := VStr "FreeBSD"; "layout" := VStr l;
     "os_family" := VStr "Debian" ]}.

Definition stored_null_layout : dict :=
  {[ "id" := VInt 1; "name" := VStr "FreeBSD"; "layout" := VNone ]}.

(** ** The entry point *)

(** The connection parameters of [module.params]. *)
Record connection : Type := Connection {
  foreman_host : string;
  foreman_port : string;
  foreman_user : string;
  foreman_pass : string;
  foreman_ssl : bool
}.

(** How the process ends: in [module.exit_json(changed=..., ptable=...)] or
    in [module.fail_json(msg=...)]. *)
Inductive exit : Type :=
| exit_json (changed : bool) (ptable : option dict)
| exit_fail_json (msg : string).

Section Main.

Context {W : Type}.

(** The object [module] that [main] makes of the argument specification. *)
Variable module : AnsibleModule.

(** The constructor [Foreman(hostname, port, username, password, ssl)] of the
    client library. *)
Variable connect : connection -> Foreman W.
Variable open_read : string -> read_result.

(** [main()], lines 168-204, from the parsed parameters on.
    [foremanclient_found] is the flag the import of lines 84-89 sets. *)
Definition main (foremanclient_found : bool) (c : connection) (p : params) (w : W)
  : exit * W * list call :=
  if negb foremanclient_found
  then
    (exit_fail_json
       "python-foreman module is required. See https://github.com/Nosmoht/python-foreman.",
     w, [])
  else
    let theforeman := connect c in
    let '(o, w', tr) := ensure module theforeman open_read p w in
    match o with
    | Returned (changed, ptable) => (exit_json changed ptable, w', tr)
    | fail_json msg => (exit_fail_json msg, w', tr)
    end.

End Main.

(** ** More to read in a run *)

(** The files a run opens. *)
Definition opened (tr : list call) : list string :=
  flat_map (fun c => match c with OpenFile path => [path] | _ => [] end) tr.

(** The store a call leaves: that of the client for a create, an update or a
    delete, the same store for the others. *)
Definition perform {W : Type} (theforeman : Foreman W) (c : call) (w : W) : W :=
  match c with
  | CreatePartitionTable data => (create_partition_table theforeman data w).2
  | UpdatePartitionTable id data => (update_partition_table theforeman id data w).2
  | DeletePartitionTable id => (delete_partition_table theforeman id w).2
  | _ => w
  end.

(** The answer of the client to a create, an update or a delete. *)
Definition answer {W : Type} (theforeman : Foreman W) (c : call) (w : W)
  : option (response dict) :=
  match c with
  | CreatePartitionTable data => Some (create_partition_table theforeman data w).1
  | UpdatePartitionTable id data => Some (update_partition_table theforeman id data w).1
  | DeletePartitionTable id => Some (delete_partition_table theforeman id w).1
  | _ => None
  end.

(** The words that open the message of a failed create, update or delete. *)
Definition prefix_of (c : call) : string :=
  match c with
  | CreatePartitionTable _ => "Could not create partition table: "
  | UpdatePartitionTable _ _ => "Could not update partition table: "
  | DeletePartitionTable _ => "Could not delete partition table: "
  | _ => ""
  end.

(** ** More concrete clients and stores *)

(** The framework of ansible-core 2.10 and later, and that of Ansible 2.0 to
    2.9, with the text of the [TypeError] of Python 3. *)
Definition ansible_2_10 : AnsibleModule := {| by_position := fun text => text |}.

Definition ansible_2_9 : AnsibleModule :=
  {| by_position := fun _ =>
       "TypeError: fail_json() takes 1 positional argument but 2 were given" |}.

(** A file system with no file, on Python 3. *)
Definition no_file_py3 (path : string) : read_result :=
  IOError "FileNotFoundError" None.

(** The client of the reference store, with a search by name that raises. *)
Definition search_down : Foreman Store.store := {|
  search_location := search_location Store.client;
  search_partition_table := fun _ _ => ForemanError "Connection refused";
  get_partition_table := get_partition_table Store.client;
  create_partition_table := create_partition_table Store.client;
  update_partition_table := update_partition_table Store.client;
  delete_partition_table := delete_partition_table Store.client
|}.

(** A client whose every call raises. *)
Definition offline : Foreman Store.store := {|
  search_location := fun _ _ => ForemanError "Connection refused";
  search_partition_table := fun _ _ => ForemanError "Connection refused";
  get_partition_table := fun _ _ => ForemanError "Connection refused";
  create_partition_table := fun _ s => (ForemanError "Connection refused", s);
  update_partition_table := fun _ _ s => (ForemanError "Connection refused", s);
  delete_partition_table := fun _ s => (ForemanError "Connection refused", s)
|}.

(** The client of the reference store, but for the lookup of the location
    [bad], which raises. *)
Definition raising_at (bad : string) : Foreman Store.store := {|
  search_location := fun data s =>
    if value_eqb (py_get data "name") (VStr bad)
    then ForemanError "Connection refused"
    else search_location Store.client data s;
  search_partition_table := search_partition_table Store.client;
  get_partition_table := get_partition_table Store.client;
  create_partition_table := create_partition_table Store.client;
  update_partition_table := update_partition_table Store.client;
  delete_partition_table := delete_partition_table Store.client
|}.

(** A store with the location [HQ] and a location [Lab] that has no id. *)
Definition lab_store (l : list dict) : Store.store :=
  {| Store.ptables := l;
     Store.location_table :=
       [ {[ "id" := VInt 7; "name" := VStr "HQ" ]}; {[ "name" := VStr "Lab" ]} ] |}.

(** The descriptor of [FreeBSD] at the given locations. *)
Definition freebsd_at (locs : list string) : params :=
  {| name := "FreeBSD"; layout := Some "zfs on root"; state := present;
     os_family := Some "FreeBSD"; template_file := None; locations := Some locs |}.

Definition admin : connection :=
  {| foreman_host := "foreman.example.com"; foreman_port := "443";
     foreman_user := "admin"; foreman_pass := "secret"; foreman_ssl := true |}.

(** * Properties *)

(** ** Equality of values *)

Lemma value_eqb_eq : forall a b : value, value_eqb a b = true <-> a = b.
Proof.
  fix IH 1.
  intros [| s | n | l] [| t | m | l']; simpl;
    try (split; [discriminate | congruence]); try tauto.
  - rewrite String.eqb_eq. split; congruence.
  - rewrite Z.eqb_eq. split; congruence.
  - revert l'. induction l as [| x l IHl]; intros [| y l']; simpl;
      try (split; [discriminate | congruence]); try tauto.
    rewrite andb_true_iff, IH. specialize (IHl l').
    split.
    + intros [-> H]. apply IHl in H. congruence.
    + intros H. injection H as -> H. split; [reflexivity|].
      apply IHl. congruence.
Qed.

Lemma value_eqb_refl (a : value) : value_eqb a a = true.
Proof. now apply value_eqb_eq. Qed.

Lemma value_eqb_neq (a b : value) : value_eqb a b = false <-> a <> b.
Proof.
  rewrite <- value_eqb_eq. destruct (value_eqb a b); split; congruence.
Qed.

(** ** The steps of a run *)

Section Steps.

Context {W : Type}.
Variable module : AnsibleModule.
Variable theforeman : Foreman W.
Variable open_read : string -> read_result.

Lemma ensure_steps (p : params) :
  ensure module theforeman open_read p =
  (let* ptable := find_ptable theforeman p in
   let* data := with_locations module theforeman p {[ "name" := VStr (name p) ]} in
   let* data := with_layout open_read p data in
   decide_action theforeman p ptable (<[ "os_family" := of_param (os_family p) ]> data)).
Proof. reflexivity. Qed.

Lemma find_ptable_run (p : params) (w : W) :
  find_ptable theforeman p w =
  (match search_partition_table theforeman {[ "name" := VStr (name p) ]} w with
   | Ok found => Returned found
   | ForemanError message => fail_json ("Could not get partition table: " +:+ message)
   end, w, [SearchPartitionTable {[ "name" := VStr (name p) ]}]).
Proof.
  unfold find_ptable, or_fail, bind, reading, ret, fail.
  destruct (search_partition_table _ _ _); reflexivity.
Qed.

Lemma get_location_ids_from_store (locs : list string) (res : list value) (w : W) :
  store_of (get_location_ids_from module theforeman res locs w) = w.
Proof.
  revert res. induction locs as [| loc locs IH]; intros res; [reflexivity|].
  cbn [get_location_ids_from]. unfold bind, reading.
  destruct (search_location _ _ _) as [location | message]; [| reflexivity].
  destruct (negb (truthy_dict location)); [reflexivity|].
  specialize (IH (res ++ [py_get (default ∅ location) "id"])%list).
  unfold store_of in *.
  destruct (get_location_ids_from _ _ _ _ _) as [[o w'] t]. cbn in *.
  destruct o; cbn; exact IH.
Qed.

Lemma get_location_ids_from_calls (locs : list string) (res : list value) (w : W) :
  exists n : nat,
    calls_of (get_location_ids_from module theforeman res locs w)
    = location_lookups (take n locs).
Proof.
  revert res. induction locs as [| loc locs IH]; intros res; [by exists 0%nat|].
  cbn [get_location_ids_from]. unfold bind, reading.
  destruct (search_location _ _ _) as [location | message];
    [| by exists 1%nat].
  destruct (negb (truthy_dict location)); [by exists 1%nat|].
  destruct (IH (res ++ [py_get (default ∅ location) "id"])%list) as [n Hn].
  exists (S n). unfold calls_of in *.
  destruct (get_location_ids_from _ _ _ _ _) as [[o w'] t]. cbn in *.
  destruct o; cbn; by rewrite Hn.
Qed.

Lemma get_location_ids_from_resolved (locs : list string) (res : list value) (w : W) :
  forallb (resolved theforeman w) locs = true ->
  get_location_ids_from module theforeman res locs w
  = (Returned (res ++ map (location_id theforeman w) locs)%list, w,
     location_lookups locs).
Proof.
  revert res. induction locs as [| loc locs IH]; intros res Hall.
  - cbn. by rewrite app_nil_r.
  - cbn [forallb] in Hall. apply andb_true_iff in Hall as [Hloc Hall].
    cbn [get_location_ids_from map location_lookups].
    unfold bind, reading, resolved, location_id, location_request in *.
    destruct (search_location _ _ _) as [location | message]; [| discriminate].
    rewrite Hloc. cbn [negb].
    rewrite (IH _ Hall). destruct location as [d |]; [| discriminate].
    cbn. by rewrite <- app_assoc.
Qed.

Lemma get_location_ids_from_miss
    (pre post : list string) (loc : string) (res : list value) (w : W) :
  forallb (resolved theforeman w) pre = true ->
  unresolved theforeman w loc = true ->
  get_location_ids_from module theforeman res (pre ++ loc :: post) w
  = (fail_json (by_position module ("Could not find Location " +:+ loc)), w,
     location_lookups (pre ++ [loc])).
Proof.
  revert res. induction pre as [| x pre IH]; intros res Hall Hmiss.
  - cbn [app get_location_ids_from location_lookups map].
    unfold bind, reading, fail, unresolved, location_request in *.
    destruct (search_location _ _ _) as [location | message]; [| discriminate].
    by rewrite Hmiss.
  - cbn [forallb] in Hall. apply andb_true_iff in Hall as [Hx Hall].
    cbn [app get_location_ids_from location_lookups map].
    unfold bind, reading, resolved, location_request in *.
    destruct (search_location _ _ _) as [location | message]; [| discriminate].
    rewrite Hx. cbn [negb].
    by rewrite (IH _ Hall Hmiss).
Qed.

Lemma outcome_of_run {A : Type} (o : outcome A) (w : W) (t : list call) :
  outcome_of (o, w, t) = o.
Proof. reflexivity. Qed.

Lemma store_of_run {A : Type} (o : outcome A) (w : W) (t : list call) :
  store_of (o, w, t) = w.
Proof. reflexivity. Qed.

Lemma calls_of_run {A : Type} (o : outcome A) (w : W) (t : list call) :
  calls_of (o, w, t) = t.
Proof. reflexivity. Qed.

Lemma bind_run {A B : Type} (m : M W A) (f : A -> M W B) (w : W) :
  bind m f w =
  match outcome_of (m w) with
  | Returned a =>
      let r := f a (store_of (m w)) in
      (outcome_of r, store_of r, (calls_of (m w) ++ calls_of r)%list)
  | fail_json msg => (fail_json msg, store_of (m w), calls_of (m w))
  end.
Proof.
  unfold bind, outcome_of, store_of, calls_of.
  destruct (m w) as [[o w1] t1]. destruct o as [a | msg]; cbn; [| reflexivity].
  by destruct (f a w1) as [[o' w2] t2].
Qed.

Lemma with_locations_store (p : params) (data : dict) (w : W) :
  store_of (with_locations module theforeman p data w) = w.
Proof.
  unfold with_locations. destruct (truthy_list (locations p)); [| reflexivity].
  rewrite bind_run. unfold get_location_ids.
  rewrite (get_location_ids_from_store (default [] (locations p)) [] w).
  by destruct (outcome_of _).
Qed.

Lemma with_locations_calls (p : params) (data : dict) (w : W) :
  exists n : nat,
    calls_of (with_locations module theforeman p data w)
    = location_lookups (take n (default [] (locations p))).
Proof.
  unfold with_locations. destruct (truthy_list (locations p)); [| by exists 0%nat].
  rewrite bind_run. unfold get_location_ids.
  destruct (get_location_ids_from_calls (default [] (locations p)) [] w) as [n Hn].
  exists n. destruct (outcome_of _); cbn; rewrite Hn; [by rewrite app_nil_r | done].
Qed.

Lemma with_layout_run (p : params) (data : dict) (w : W) :
  with_layout open_read p data w =
  (match resolved_layout open_read p with
   | Some L => Returned (<[ "layout" := VStr L ]> data)
   | None => fail_json (layout_failure open_read p)
   end, w, layout_reads p).
Proof.
  unfold with_layout, resolved_layout, layout_failure, layout_reads, validation_message.
  destruct (layout p) as [l |] eqn:Hl; cbn [truthy_str];
    [destruct (String.eqb l "") eqn:Hl'|];
    destruct (truthy_str (template_file p)) eqn:Ht; cbn; try reflexivity;
    unfold bind, opening, ret, fail;
    destruct (open_read _); reflexivity.
Qed.

Lemma decide_action_run (p : params) (found : option dict) (data : dict) (w : W) :
  decide_action theforeman p found data w =
  if truthy_dict found
  then
    let id := py_get (default ∅ found) "id" in
    match state p with
    | absent =>
        let r := delete_partition_table theforeman id w in
        (changed_or_fail "Could not delete partition table: " r.1, r.2,
         [DeletePartitionTable id])
    | present =>
        match get_partition_table theforeman id w with
        | ForemanError message =>
            (fail_json ("Could not get partition table to update: " +:+ message), w,
             [GetPartitionTable id])
        | Ok ptable =>
            if value_eqb (py_get ptable "layout") (of_param (layout p))
               || value_eqb (py_get ptable "layout") (py_get data "layout")
            then (Returned (false, Some ptable), w, [GetPartitionTable id])
            else
              let r := update_partition_table theforeman (py_get ptable "id") data w in
              (changed_or_fail "Could not update partition table: " r.1, r.2,
               [GetPartitionTable id; UpdatePartitionTable (py_get ptable "id") data])
        end
    end
  else
    match state p with
    | present =>
        let r := create_partition_table theforeman data w in
        (changed_or_fail "Could not create partition table: " r.1, r.2,
         [CreatePartitionTable data])
    | absent => (Returned (false, found), w, [])
    end.
Proof.
  unfold decide_action, or_fail, bind, mutating, reading, ret, fail, changed_or_fail.
  destruct (truthy_dict found), (state p); cbn [negb andb is_present is_absent].
  - destruct (get_partition_table _ _ _) as [ptable | message]; [| reflexivity].
    destruct (_ || _); [reflexivity|].
    destruct (update_partition_table _ _ _ _) as [[r | message] w']; reflexivity.
  - destruct (delete_partition_table _ _ _) as [[r | message] w']; reflexivity.
  - destruct (create_partition_table _ _ _) as [[r | message] w']; reflexivity.
  - reflexivity.
Qed.

Lemma ensure_run (p : params) (w : W) :
  ensure module theforeman open_read p w =
  match search_partition_table theforeman (named p) w with
  | ForemanError message =>
      (fail_json ("Could not get partition table: " +:+ message), w,
       [SearchPartitionTable (named p)])
  | Ok found =>
      let r1 := with_locations module theforeman p (named p) w in
      match outcome_of r1 with
      | fail_json msg => (fail_json msg, w, SearchPartitionTable (named p) :: calls_of r1)
      | Returned data =>
          match resolved_layout open_read p with
          | None =>
              (fail_json (layout_failure open_read p), w,
               SearchPartitionTable (named p) :: calls_of r1 ++ layout_reads p)%list
          | Some L =>
              let r3 :=
                decide_action theforeman p found
                  (<[ "os_family" := of_param (os_family p) ]>
                     (<[ "layout" := VStr L ]> data)) w in
              (outcome_of r3, store_of r3,
               SearchPartitionTable (named p) :: calls_of r1 ++ layout_reads p
                 ++ calls_of r3)%list
          end
      end
  end.
Proof.
  rewrite ensure_steps, bind_run, find_ptable_run, ?outcome_of_run, ?store_of_run, ?calls_of_run.
  unfold named.
  destruct (search_partition_table _ _ _) as [found | message]; [| reflexivity].
  cbv zeta. rewrite bind_run, with_locations_store.
  destruct (outcome_of (with_locations _ _ _ _ _)) as [data | msg];
    rewrite ?outcome_of_run, ?store_of_run, ?calls_of_run; [| reflexivity].
  rewrite bind_run, with_layout_run, ?outcome_of_run, ?store_of_run, ?calls_of_run.
  destruct (resolved_layout _ _) as [L |]; rewrite ?outcome_of_run, ?store_of_run, ?calls_of_run; reflexivity.
Qed.

Lemma with_locations_resolved (p : params) (data : dict) (w : W) :
  forallb (resolved theforeman w) (default [] (locations p)) = true ->
  with_locations module theforeman p data w
  = (Returned
       (if truthy_list (locations p)
        then <[ "location_ids" :=
                  VList (map (location_id theforeman w) (default [] (locations p))) ]> data
        else data),
     w, location_lookups (default [] (locations p))).
Proof.
  intros Hall. unfold with_locations.
  destruct (truthy_list (locations p)) eqn:Hl.
  - unfold get_location_ids, bind, ret.
    rewrite (get_location_ids_from_resolved _ [] w Hall). cbn.
    by rewrite app_nil_r.
  - destruct (locations p) as [[| ? ?] |]; done.
Qed.

Lemma with_locations_miss (p : params) (data : dict) (w : W)
    (pre post : list string) (loc : string) :
  locations p = Some (pre ++ loc :: post) ->
  forallb (resolved theforeman w) pre = true ->
  unresolved theforeman w loc = true ->
  with_locations module theforeman p data w
  = (fail_json (by_position module ("Could not find Location " +:+ loc)), w,
     location_lookups (pre ++ [loc])).
Proof.
  intros Hl Hall Hmiss. unfold with_locations. rewrite Hl.
  replace (truthy_list (Some (pre ++ loc :: post))) with true
    by (by destruct pre).
  unfold get_location_ids, bind. cbn [from_option id].
  by rewrite (get_location_ids_from_miss pre post loc [] w Hall Hmiss).
Qed.

(** The run of a descriptor whose locations and layout resolve. *)
Lemma ensure_resolved (p : params) (w : W) (found : option dict) (L : string) :
  search_partition_table theforeman (named p) w = Ok found ->
  forallb (resolved theforeman w) (default [] (locations p)) = true ->
  resolved_layout open_read p = Some L ->
  let r := decide_action theforeman p found (payload theforeman p w L) w in
  ensure module theforeman open_read p w
  = (outcome_of r, store_of r,
     SearchPartitionTable (named p) :: location_lookups (default [] (locations p))
       ++ layout_reads p ++ calls_of r)%list.
Proof.
  intros Hs Hall HL. rewrite ensure_run, Hs. cbv zeta.
  rewrite (with_locations_resolved _ _ _ Hall), HL.
  rewrite ?outcome_of_run, ?store_of_run, ?calls_of_run.
  unfold payload, named.
  destruct (truthy_list (locations p)); reflexivity.
Qed.

Lemma location_lookups_app (l1 l2 : list string) :
  location_lookups (l1 ++ l2) = (location_lookups l1 ++ location_lookups l2)%list.
Proof. apply map_app. Qed.

Lemma mutations_app (t1 t2 : list call) :
  mutations (t1 ++ t2) = (mutations t1 ++ mutations t2)%list.
Proof. apply filter_app. Qed.

Lemma mutations_location_lookups (locs : list string) :
  mutations (location_lookups locs) = [].
Proof. induction locs as [| loc locs IH]; [done|]. exact IH. Qed.

Lemma mutations_layout_reads (p : params) : mutations (layout_reads p) = [].
Proof. unfold layout_reads. by destruct (_ && _). Qed.

End Steps.

(** ** Creation *)

(** C4. A present descriptor whose layout resolves to [L], whose locations
    resolve, and for which the search by name finds nothing: create is the one
    mutating call, its payload is the name, the layout [L], the os family and
    the location ids (when locations were given), and the run returns
    changed = true with the answer of the server.  On the reference store the
    descriptor of [FreeBSD] gives a result whose name is [FreeBSD]. *)
Theorem C4_create_when_missing :
  (forall (W : Type) (module : AnsibleModule) (theforeman : Foreman W)
          (open_read : string -> read_result)
          (p : params) (w w' : W) (found : option dict) (L : string) (r : dict),
      state p = present ->
      search_partition_table theforeman (named p) w = Ok found ->
      truthy_dict found = false ->
      forallb (resolved theforeman w) (default [] (locations p)) = true ->
      resolved_layout open_read p = Some L ->
      create_partition_table theforeman (payload theforeman p w L) w = (Ok r, w') ->
      let run := ensure module theforeman open_read p w in
      outcome_of run = Returned (true, Some r)
      /\ store_of run = w'
      /\ calls_of run
         = SearchPartitionTable (named p) :: location_lookups (default [] (locations p))
             ++ layout_reads p ++ [CreatePartitionTable (payload theforeman p w L)]
      /\ mutations (calls_of run) = [CreatePartitionTable (payload theforeman p w L)])
  /\ (let run := ensure ansible_2_10 Store.client Store.no_file freebsd empty_store in
      exists r : dict,
        outcome_of run = Returned (true, Some r)
        /\ py_get r "name" = VStr "FreeBSD"
        /\ mutations (calls_of run)
           = [CreatePartitionTable
                {[ "name" := VStr "FreeBSD"; "layout" := VStr "zfs on root";
                   "os_family" := VStr "FreeBSD" ]}]).
Proof.
  split.
  - intros W module theforeman open_read p w w' found L r Hst Hs Hf Hall HL Hc run.
    subst run. rewrite (ensure_resolved _ _ _ _ _ _ _ Hs Hall HL). cbv zeta.
    rewrite decide_action_run, Hf, Hst, Hc. cbn [fst snd changed_or_fail].
    rewrite ?outcome_of_run, ?store_of_run, ?calls_of_run.
    repeat split.
    change (SearchPartitionTable (named p) :: ?l) with ([SearchPartitionTable (named p)] ++ l).
    rewrite !mutations_app, mutations_location_lookups, mutations_layout_reads.
    reflexivity.
  - eexists. repeat split; vm_compute; reflexivity.
Qed.

Lemma C4_create_when_missing_witness :
  let run := ensure ansible_2_10 Store.client Store.no_file freebsd empty_store in
  outcome_of run
  = Returned (true, Some (<[ "id" := VInt 1 ]> (payload Store.client freebsd empty_store "zfs on root")))
  /\ store_of run
     = {| Store.ptables :=
            [<[ "id" := VInt 1 ]> (payload Store.client freebsd empty_store "zfs on root")];
          Store.location_table := [] |}
  /\ calls_of run
     = SearchPartitionTable (named freebsd) :: location_lookups (default [] (locations freebsd))
         ++ layout_reads freebsd
         ++ [CreatePartitionTable (payload Store.client freebsd empty_store "zfs on root")]
  /\ mutations (calls_of run)
     = [CreatePartitionTable (payload Store.client freebsd empty_store "zfs on root")].
Proof.
  apply (proj1 C4_create_when_missing _ ansible_2_10 Store.client Store.no_file freebsd empty_store _ None);
    reflexivity.
Defined.

(** ** Deletion *)

(** The descriptor that names [FreeBSD] and asks for its absence, with no
    layout, does not delete the stored record: the run fails in the validation
    of the layout. *)
Lemma C5_absent_without_layout_fails :
  let run := ensure ansible_2_10 Store.client Store.no_file absent_by_name (hq_store [stored "zfs on root"]) in
  search_partition_table Store.client (named absent_by_name) (hq_store [stored "zfs on root"])
  = Ok (Some (stored "zfs on root"))
  /\ outcome_of run = fail_json "Either layout or template_file must be defined"
  /\ store_of run = hq_store [stored "zfs on root"]
  /\ mutations (calls_of run) = [].
Proof. repeat split; vm_compute; reflexivity. Qed.

(** C5, amended. An absent descriptor that passes the validation of the
    layout and whose locations resolve: when the search by name finds a
    record, the delete by its id is the one mutating call and the run returns
    changed = true with the answer of the server (or the failure of the
    delete); when it finds none, the run issues no mutating call, leaves the
    store and returns changed = false with the result of the search, [None]. *)
Theorem C5_absent_deletes_or_leaves
    (W : Type) (module : AnsibleModule) (theforeman : Foreman W)
    (open_read : string -> read_result)
    (p : params) (w : W) (found : option dict) (L : string) :
  state p = absent ->
  search_partition_table theforeman (named p) w = Ok found ->
  forallb (resolved theforeman w) (default [] (locations p)) = true ->
  resolved_layout open_read p = Some L ->
  let run := ensure module theforeman open_read p w in
  if truthy_dict found
  then
    let id := py_get (default ∅ found) "id" in
    let r := delete_partition_table theforeman id w in
    outcome_of run = changed_or_fail "Could not delete partition table: " r.1
    /\ store_of run = r.2
    /\ mutations (calls_of run) = [DeletePartitionTable id]
  else
    outcome_of run = Returned (false, found)
    /\ store_of run = w
    /\ mutations (calls_of run) = [].
Proof.
  intros Hst Hs Hall HL run. subst run.
  rewrite (ensure_resolved _ _ _ _ _ _ _ Hs Hall HL). cbv zeta.
  rewrite decide_action_run, Hst.
  change (SearchPartitionTable (named p) :: ?l) with ([SearchPartitionTable (named p)] ++ l).
  destruct (truthy_dict found); cbv zeta;
    rewrite ?outcome_of_run, ?store_of_run, ?calls_of_run,
      !mutations_app, mutations_location_lookups, mutations_layout_reads;
    repeat split.
Qed.

Lemma C5_absent_deletes_or_leaves_witness :
  let run := ensure ansible_2_10 Store.client Store.no_file absent_with_layout (hq_store [stored "ufs"]) in
  outcome_of run = Returned (true, Some (stored "ufs"))
  /\ store_of run = hq_store []
  /\ mutations (calls_of run) = [DeletePartitionTable (VInt 1)].
Proof.
  apply (C5_absent_deletes_or_leaves _ ansible_2_10 Store.client Store.no_file absent_with_layout
           (hq_store [stored "ufs"]) (Some (stored "ufs")) "zfs on root");
    reflexivity.
Defined.

(** ** Locations *)

(** A descriptor at [Lab], a location the store does not have, with a search
    by name that raises: the run fails with the message of the search, which
    names no location, also under the framework that takes a message by
    position. *)
Lemma C7_search_failure_names_no_location :
  let run :=
    ensure ansible_2_10 search_down Store.no_file (freebsd_at ["Lab"]) (hq_store []) in
  unresolved search_down (hq_store []) "Lab" = true
  /\ outcome_of run = fail_json "Could not get partition table: Connection refused"
  /\ calls_of run = [SearchPartitionTable {[ "name" := VStr "FreeBSD" ]}].
Proof. repeat split; vm_compute; reflexivity. Qed.

(** C7, amended. A descriptor whose list of locations has a name the client
    does not find, all the names before it being resolved: the run fails, it
    issues no create, update or delete and leaves the store.  When the search
    by name went through, the run fails at the lookup of that location, the
    first one the client does not find, which is its last call: there the
    source hands [fail_json], by position, the text [Could not find Location]
    with the name of that location. *)
Theorem C7_unresolved_location_fails
    (W : Type) (module : AnsibleModule) (theforeman : Foreman W)
    (open_read : string -> read_result)
    (p : params) (w : W) (pre post : list string) (loc : string) :
  locations p = Some (pre ++ loc :: post) ->
  forallb (resolved theforeman w) pre = true ->
  unresolved theforeman w loc = true ->
  let run := ensure module theforeman open_read p w in
  (exists msg : string, outcome_of run = fail_json msg)
  /\ store_of run = w
  /\ mutations (calls_of run) = []
  /\ (forall found : option dict,
         search_partition_table theforeman (named p) w = Ok found ->
         outcome_of run
         = fail_json (by_position module ("Could not find Location " +:+ loc))
         /\ calls_of run
            = SearchPartitionTable (named p) :: location_lookups (pre ++ [loc])).
Proof.
  intros Hl Hall Hmiss run. subst run. rewrite ensure_run.
  destruct (search_partition_table _ _ _) as [found | message].
  - cbv zeta. rewrite (with_locations_miss _ _ _ _ _ _ _ _ Hl Hall Hmiss).
    rewrite ?outcome_of_run, ?store_of_run, ?calls_of_run.
    repeat split; eauto.
    change (SearchPartitionTable (named p) :: ?l) with ([SearchPartitionTable (named p)] ++ l).
    by rewrite mutations_app, mutations_location_lookups.
  - rewrite ?outcome_of_run, ?store_of_run, ?calls_of_run.
    repeat split; eauto; discriminate.
Qed.

(** A descriptor at [HQ], [Lab] and [Attic], of which the store has the
    first. *)
Lemma C7_unresolved_location_fails_witness :
  let p := freebsd_at ["HQ"; "Lab"; "Attic"] in
  let run := ensure ansible_2_9 Store.client Store.no_file p (hq_store []) in
  (exists msg : string, outcome_of run = fail_json msg)
  /\ store_of run = hq_store []
  /\ mutations (calls_of run) = []
  /\ (forall found : option dict,
         search_partition_table Store.client (named p) (hq_store []) = Ok found ->
         outcome_of run
         = fail_json (by_position ansible_2_9 ("Could not find Location " +:+ "Lab"))
         /\ calls_of run
            = SearchPartitionTable (named p) :: location_lookups (["HQ"] ++ ["Lab"])).
Proof.
  intros p.
  apply (C7_unresolved_location_fails _ ansible_2_9 Store.client Store.no_file p (hq_store [])
           ["HQ"] ["Attic"] "Lab"); reflexivity.
Defined.

(** What the process ends with at that descriptor: the message that names
    [Lab] under the framework that takes a message by position, the
    [TypeError] under the one that does not. *)
Lemma location_miss_by_position :
  outcome_of (ensure ansible_2_10 Store.client Store.no_file
                (freebsd_at ["HQ"; "Lab"; "Attic"]) (hq_store []))
  = fail_json "Could not find Location Lab"
  /\ outcome_of (ensure ansible_2_9 Store.client Store.no_file
                   (freebsd_at ["HQ"; "Lab"; "Attic"]) (hq_store []))
     = fail_json "TypeError: fail_json() takes 1 positional argument but 2 were given".
Proof. split; vm_compute; reflexivity. Qed.

(** ** The calls of a run *)

(** Every branch of a run: the search, the locations, the layout, and the
    decision. *)
Ltac run_cases module theforeman open_read p w :=
  rewrite (ensure_run module theforeman open_read p w);
  destruct (search_partition_table theforeman (named p) w) as [found | message] eqn:Hsearch;
  cbv zeta;
  [ destruct (with_locations_calls module theforeman p (named p) w) as [n Hn];
    rewrite ?Hn; clear Hn;
    destruct (outcome_of (with_locations module theforeman p (named p) w)) as [data | msg] eqn:Hloc;
    [ destruct (resolved_layout open_read p) as [L |] eqn:HL;
      [ rewrite decide_action_run;
        destruct (truthy_dict found) eqn:Hfound, (state p) eqn:Hstate; cbv zeta;
        [ destruct (get_partition_table theforeman _ w) as [ptable | message] eqn:Hget;
          [ destruct (_ || _) eqn:Hsame |]
        | | | ]
      | ]
    | ]
  | ];
  rewrite ?outcome_of_run, ?store_of_run, ?calls_of_run.

Lemma mutations_search (d : dict) (tr : list call) :
  mutations (SearchPartitionTable d :: tr) = mutations tr.
Proof. reflexivity. Qed.

Lemma last_of_calls (c0 c : call) (t1 t2 t3 : list call) :
  last (c0 :: t1 ++ t2 ++ t3 ++ [c]) = Some c.
Proof. by rewrite !app_assoc, app_comm_cons, last_snoc. Qed.

Lemma changed_or_fail_not_unchanged (prefix : string) (r : response dict) (x : option dict) :
  changed_or_fail prefix r <> Returned (false, x).
Proof. by destruct r. Qed.

(** The descriptor that asks for the absence of a record the store does not
    have: the run returns changed = false; it neither fails nor completes a
    create, an update or a delete. *)
Lemma C8_run_without_mutation_or_failure :
  let run := ensure ansible_2_10 Store.client Store.no_file absent_with_layout empty_store in
  outcome_of run = Returned (false, None)
  /\ mutations (calls_of run) = [].
Proof. split; vm_compute; reflexivity. Qed.

(** C8, amended. A run issues at most one create, update or delete, and it
    is then its last call.  A run with none leaves the store as it was and
    does not return changed = true: it returns changed = false or fails.  A
    run with one does not return changed = false: it returns changed = true,
    or it fails in that call. *)
Theorem C8_at_most_one_mutation
    (W : Type) (module : AnsibleModule) (theforeman : Foreman W)
    (open_read : string -> read_result)
    (p : params) (w : W) :
  let run := ensure module theforeman open_read p w in
  match mutations (calls_of run) with
  | [] => store_of run = w /\ forall r, outcome_of run <> Returned (true, r)
  | [c] => last (calls_of run) = Some c /\ forall r, outcome_of run <> Returned (false, r)
  | _ => False
  end.
Proof.
  intros run. subst run. run_cases module theforeman open_read p w;
    rewrite mutations_search, ?mutations_app, ?mutations_location_lookups,
      ?mutations_layout_reads;
    try (split; [reflexivity | intros r; discriminate]).
  - change (mutations [GetPartitionTable ?i; UpdatePartitionTable ?j ?d])
      with [UpdatePartitionTable j d].
    split; [| intros r; apply changed_or_fail_not_unchanged].
    change [GetPartitionTable ?i; UpdatePartitionTable ?j ?d]
      with ([GetPartitionTable i] ++ [UpdatePartitionTable j d]).
    apply last_of_calls.
  - change (mutations [DeletePartitionTable ?i]) with [DeletePartitionTable i].
    split; [| intros r; apply changed_or_fail_not_unchanged].
    apply (last_of_calls _ _ _ _ []).
  - change (mutations [CreatePartitionTable ?d]) with [CreatePartitionTable d].
    split; [| intros r; apply changed_or_fail_not_unchanged].
    apply (last_of_calls _ _ _ _ []).
Qed.

Lemma reads_location_lookups (locs : list string) :
  Forall (fun c => is_mutation c = false) (location_lookups locs).
Proof. induction locs; by constructor. Qed.

Lemma reads_layout_reads (p : params) :
  Forall (fun c => is_mutation c = false) (layout_reads p).
Proof. unfold layout_reads. destruct (_ && _); by repeat constructor. Qed.

(** A property of the calls of a run that the reading calls have is left to
    show of the calls of the decision. *)
Ltac calls_with Hread :=
  repeat first
    [ apply Forall_nil_2
    | apply Forall_cons_2
    | apply Forall_app_2
    | (eapply Forall_impl; [apply reads_location_lookups | exact Hread])
    | (eapply Forall_impl; [apply reads_layout_reads | exact Hread]) ].

Lemma C8_at_most_one_mutation_witness :
  let run := ensure ansible_2_10 Store.client Store.no_file freebsd empty_store in
  match mutations (calls_of run) with
  | [] => store_of run = empty_store /\ forall r, outcome_of run <> Returned (true, r)
  | [c] => last (calls_of run) = Some c /\ forall r, outcome_of run <> Returned (false, r)
  | _ => False
  end.
Proof.
  apply (C8_at_most_one_mutation _ ansible_2_10 Store.client Store.no_file freebsd empty_store).
Defined.

(** ** Payloads *)

(** C9. When [locations] is omitted or is the empty list, no payload of a
    create or of an update has an entry [location_ids]. *)
Theorem C9_no_location_ids_without_locations
    (W : Type) (module : AnsibleModule) (theforeman : Foreman W)
    (open_read : string -> read_result)
    (p : params) (w : W) :
  locations p = None \/ locations p = Some [] ->
  Forall (fun c => forall data, payload_of c = Some data -> data !! "location_ids" = None)
    (calls_of (ensure module theforeman open_read p w)).
Proof.
  intros Hl.
  assert (with_locations module theforeman p (named p) w = (Returned (named p), w, [])) as Hwl.
  { unfold with_locations. by destruct Hl as [-> | ->]. }
  assert (forall L,
    (<[ "os_family" := of_param (os_family p) ]> (<[ "layout" := VStr L ]> (named p)) : dict)
      !! "location_ids" = None) as Hno.
  { intros L. unfold named. by rewrite !lookup_insert_ne, lookup_singleton_ne. }
  assert (forall c, is_mutation c = false ->
            forall data, payload_of c = Some data -> data !! "location_ids" = None) as Hread
    by (by intros []).
  run_cases module theforeman open_read p w;
    try (rewrite Hwl, outcome_of_run in Hloc; injection Hloc as <-);
    calls_with Hread; try (by apply Hread); intros ? [= <-]; apply Hno.
Qed.

Lemma C9_no_location_ids_without_locations_witness :
  Forall (fun c => forall data, payload_of c = Some data -> data !! "location_ids" = None)
    (calls_of (ensure ansible_2_10 Store.client Store.no_file freebsd empty_store)).
Proof.
  apply (C9_no_location_ids_without_locations _ ansible_2_10 Store.client Store.no_file freebsd empty_store).
  left. reflexivity.
Defined.

(** C10. Every payload of a create or of an update has the entry
    [os_family], equal to the parameter, [None] when it was omitted.  An
    update is issued only after a fetch whose layout differs from the layout
    of the payload: a difference of the os family alone triggers none, and the
    update that a layout triggers carries the os family.  On the reference
    store: a record of os family [Debian] with the layout asked for is left,
    and one with another layout ends with the os family of the descriptor. *)
Theorem C10_os_family_in_every_payload :
  (forall (W : Type) (module : AnsibleModule) (theforeman : Foreman W)
          (open_read : string -> read_result)
          (p : params) (w : W),
      let run := ensure module theforeman open_read p w in
      Forall (fun c => forall data, payload_of c = Some data ->
                data !! "os_family"
                = Some (match os_family p with Some s => VStr s | None => VNone end))
        (calls_of run)
      /\ Forall (fun c => forall id data, c = UpdatePartitionTable id data ->
                   exists found ptable,
                     search_partition_table theforeman (named p) w = Ok found
                     /\ get_partition_table theforeman (py_get (default ∅ found) "id") w
                        = Ok ptable
                     /\ id = py_get ptable "id"
                     /\ py_get ptable "layout" <> py_get data "layout")
           (calls_of run))
  /\ (let run := ensure ansible_2_10 Store.client Store.no_file freebsd (hq_store [stored "zfs on root"]) in
      outcome_of run = Returned (false, Some (stored "zfs on root"))
      /\ mutations (calls_of run) = []
      /\ py_get (stored "zfs on root") "os_family" = VStr "Debian")
  /\ (let run := ensure ansible_2_10 Store.client one_file from_file (hq_store [stored "ufs"]) in
      exists r : dict,
        outcome_of run = Returned (true, Some r)
        /\ Store.ptables (store_of run) = [r]
        /\ py_get r "layout" = VStr "zfs on root"
        /\ py_get r "os_family" = VNone).
Proof.
  split; [| split; [| eexists]; repeat split; vm_compute; reflexivity].
  intros W module theforeman open_read p w run. subst run.
  assert (forall c, is_mutation c = false ->
            forall data, payload_of c = Some data ->
              data !! "os_family"
              = Some (match os_family p with Some s => VStr s | None => VNone end)) as Hread
    by (by intros []).
  assert (forall c, is_mutation c = false ->
            forall id data, c = UpdatePartitionTable id data ->
              exists found ptable,
                search_partition_table theforeman (named p) w = Ok found
                /\ get_partition_table theforeman (py_get (default ∅ found) "id") w
                   = Ok ptable
                /\ id = py_get ptable "id"
                /\ py_get ptable "layout" <> py_get data "layout") as Hread'
    by (by intros [] ? ? ?).
  run_cases module theforeman open_read p w; split;
    first [ calls_with Hread; try (by apply Hread); intros ? [= <-];
            apply lookup_insert_eq
          | calls_with Hread'; try (by apply Hread'); try (intros ? ?; discriminate) ].
  intros ? ? [= <- <-]. exists found, ptable. repeat split; try done.
  apply orb_false_iff in Hsame as [_ Hne]. by apply value_eqb_neq.
Qed.

Lemma C10_os_family_in_every_payload_witness :
  Forall (fun c => forall data, payload_of c = Some data ->
            data !! "os_family" = Some VNone)
    (calls_of (ensure ansible_2_10 Store.client one_file from_file (hq_store [stored "ufs"]))).
Proof.
  apply (proj1 C10_os_family_in_every_payload _ ansible_2_10 Store.client one_file from_file
           (hq_store [stored "ufs"])).
Defined.

(** ** The order of the calls *)

Section Order.

Variable step : call -> nat.

Lemma in_order_app (t1 t2 : list call) (k : nat) :
  Forall (fun c => (step c <= k)%nat) t1 ->
  Forall (fun c => (k <= step c)%nat) t2 ->
  in_order step t1 = true ->
  in_order step t2 = true ->
  in_order step (t1 ++ t2) = true.
Proof.
  intros H1 H2 Ho1 Ho2. induction H1 as [| c t1 Hc H1 IH]; [done|].
  cbn [in_order app] in *. apply andb_true_iff in Ho1 as [Hc1 Ho1].
  rewrite forallb_app, Hc1, (IH Ho1). cbn [andb].
  rewrite andb_true_r. apply forallb_forall. intros c' Hin.
  rewrite Forall_forall in H2. apply list_elem_of_In, H2 in Hin.
  apply Nat.leb_le. lia.
Qed.

Lemma in_order_same (t : list call) (k : nat) :
  Forall (fun c => step c = k) t -> in_order step t = true.
Proof.
  induction 1 as [| c t Hc Ht IH]; [done|].
  cbn [in_order]. rewrite IH, andb_true_r.
  apply forallb_forall. intros c' Hin.
  rewrite Forall_forall in Ht. apply list_elem_of_In, Ht in Hin.
  apply Nat.leb_le. lia.
Qed.

End Order.

Lemma step_of_location_lookups (locs : list string) :
  Forall (fun c => step_of c = 1%nat) (location_lookups locs).
Proof. induction locs; by constructor. Qed.

Lemma step_of_layout_reads (p : params) :
  Forall (fun c => step_of c = 2%nat) (layout_reads p).
Proof. unfold layout_reads. destruct (_ && _); by repeat constructor. Qed.

(** The calls of a run in the order of the source, given the reading of the
    file and the calls of the decision. *)
Lemma in_order_calls (d : dict) (locs : list string) (reads acts : list call) :
  Forall (fun c => step_of c = 2%nat) reads ->
  Forall (fun c => step_of c = 3%nat) acts ->
  in_order step_of
    (SearchPartitionTable d :: location_lookups locs ++ reads ++ acts) = true.
Proof.
  intros Hr Hacts.
  pose proof (step_of_location_lookups locs) as Hl.
  change (SearchPartitionTable d :: ?l) with ([SearchPartitionTable d] ++ l).
  apply (in_order_app _ _ _ 0%nat); [by repeat constructor | | done |].
  { rewrite !Forall_app. repeat split;
      (eapply Forall_impl; [eassumption | cbn; intros; lia]). }
  apply (in_order_app _ _ _ 1%nat).
  - eapply Forall_impl; [exact Hl | cbn; intros; lia].
  - rewrite !Forall_app. split;
      (eapply Forall_impl; [eassumption | cbn; intros; lia]).
  - by apply (in_order_same _ _ 1%nat).
  - apply (in_order_app _ _ _ 2%nat).
    + eapply Forall_impl; [exact Hr | cbn; intros; lia].
    + eapply Forall_impl; [exact Hacts | cbn; intros; lia].
    + by apply (in_order_same _ _ 2%nat).
    + by apply (in_order_same _ _ 3%nat).
Qed.

(** A present descriptor at [HQ] whose layout comes from a file: the search
    by name comes first, then the lookup of the location, then the file, then
    the create.  The order the specification gives, file first and search by
    name third, is not the order of the calls. *)
Lemma C6_search_precedes_layout :
  let run := ensure ansible_2_10 Store.client one_file from_file_at_hq (hq_store []) in
  calls_of run
  = [ SearchPartitionTable {[ "name" := VStr "FreeBSD" ]};
      SearchLocation {[ "name" := VStr "HQ" ]};
      OpenFile "/etc/ptable";
      CreatePartitionTable
        {[ "name" := VStr "FreeBSD"; "location_ids" := VList [VInt 7];
           "layout" := VStr "zfs on root"; "os_family" := VNone ]} ]
  /\ in_order spec_step_of (calls_of run) = false.
Proof. split; vm_compute; reflexivity. Qed.

(** C6, amended. The calls of every run come in the order of the source:
    first the search by name, which every run issues, then the lookups of the
    locations, then the reading of the file of the layout, and only then the
    fetch, the create, the update or the delete. *)
Theorem C6_order_of_calls
    (W : Type) (module : AnsibleModule) (theforeman : Foreman W)
    (open_read : string -> read_result)
    (p : params) (w : W) :
  let run := ensure module theforeman open_read p w in
  head (calls_of run) = Some (SearchPartitionTable (named p))
  /\ in_order step_of (calls_of run) = true.
Proof.
  intros run. subst run.
  run_cases module theforeman open_read p w; (split; [reflexivity|]);
    try (apply in_order_calls; [apply step_of_layout_reads | by repeat constructor]).
  - rewrite <- (app_nil_r (layout_reads p)).
    apply in_order_calls; [apply step_of_layout_reads | constructor].
  - rewrite <- (app_nil_r (location_lookups _)).
    apply (in_order_calls _ _ [] []); constructor.
  - apply (in_order_calls _ [] [] []); constructor.
Qed.

Lemma C6_order_of_calls_witness :
  let run := ensure ansible_2_10 Store.client one_file from_file_at_hq (hq_store []) in
  head (calls_of run) = Some (SearchPartitionTable (named from_file_at_hq))
  /\ in_order step_of (calls_of run) = true.
Proof.
  apply (C6_order_of_calls _ ansible_2_10 Store.client one_file from_file_at_hq (hq_store [])).
Defined.

(** ** Validation of the layout *)

Lemma both_or_neither_unresolved (open_read : string -> read_result) (p : params) :
  truthy_str (layout p) = truthy_str (template_file p) ->
  resolved_layout open_read p = None
  /\ layout_reads p = []
  /\ layout_failure open_read p = validation_message p.
Proof.
  unfold resolved_layout, layout_reads, layout_failure. intros ->.
  by destruct (truthy_str (template_file p)).
Qed.

(** A descriptor at [HQ] with neither [layout] nor [template_file]: the
    failure of the validation comes after the search by name and the lookup of
    the location, two calls to the server. *)
Lemma C1_lookups_precede_validation :
  let run := ensure ansible_2_10 Store.client Store.no_file neither_at_hq (hq_store []) in
  outcome_of run = fail_json "Either layout or template_file must be defined"
  /\ calls_of run
     = [ SearchPartitionTable {[ "name" := VStr "FreeBSD" ]};
         SearchLocation {[ "name" := VStr "HQ" ]} ]
  /\ existsb is_remote (calls_of run) = true.
Proof. repeat split; vm_compute; reflexivity. Qed.

(** C1, amended. A descriptor in which [layout] and [template_file] are both
    given or both missing (an empty string counts as missing): the run fails;
    it begins with the search by name and issues nothing but this search and
    lookups of locations, so no fetch, create, update or delete and no reading
    of a file, and it leaves the store.  When the search by name goes through
    and the locations resolve, the failure is that of the validation, with its
    message. *)
Theorem C1_validation_after_lookups
    (W : Type) (module : AnsibleModule) (theforeman : Foreman W)
    (open_read : string -> read_result)
    (p : params) (w : W) :
  truthy_str (layout p) = truthy_str (template_file p) ->
  let run := ensure module theforeman open_read p w in
  (exists msg : string, outcome_of run = fail_json msg)
  /\ store_of run = w
  /\ head (calls_of run) = Some (SearchPartitionTable (named p))
  /\ forallb is_lookup (calls_of run) = true
  /\ (forall found : option dict,
         search_partition_table theforeman (named p) w = Ok found ->
         forallb (resolved theforeman w) (default [] (locations p)) = true ->
         outcome_of run
         = fail_json
             (if truthy_str (layout p)
              then "Only one of either layout or template_file must be defined"
              else "Either layout or template_file must be defined")
         /\ calls_of run
            = SearchPartitionTable (named p)
                :: location_lookups (default [] (locations p))).
Proof.
  intros Hv run. subst run.
  destruct (both_or_neither_unresolved open_read p Hv) as (Hnone & Hreads & Hmsg).
  assert (forall locs, forallb is_lookup (location_lookups locs) = true) as Hlook
    by (induction locs; done).
  rewrite ensure_run.
  destruct (search_partition_table _ _ _) as [found | message]; cbv zeta.
  - rewrite Hnone, Hreads, Hmsg.
    destruct (with_locations_calls module theforeman p (named p) w) as [n Hn].
    destruct (outcome_of (with_locations _ _ _ _ _)) as [data | msg] eqn:Hloc;
      rewrite ?outcome_of_run, ?store_of_run, ?calls_of_run, ?app_nil_r, Hn;
      (split; [eauto|]); (split; [reflexivity|]); (split; [reflexivity|]);
      (split; [apply (Hlook (take n (default [] (locations p))))|]);
      intros ? [= <-] Hall;
      rewrite (with_locations_resolved _ _ _ _ _ Hall), ?outcome_of_run, ?calls_of_run in *;
      [| discriminate].
    split; [reflexivity|]. by rewrite <- Hn.
  - rewrite ?outcome_of_run, ?store_of_run, ?calls_of_run.
    repeat split; eauto; discriminate.
Qed.

Lemma C1_validation_after_lookups_witness :
  let run := ensure ansible_2_10 Store.client Store.no_file neither_at_hq (hq_store []) in
  (exists msg : string, outcome_of run = fail_json msg)
  /\ store_of run = hq_store []
  /\ head (calls_of run) = Some (SearchPartitionTable (named neither_at_hq))
  /\ forallb is_lookup (calls_of run) = true
  /\ (forall found : option dict,
         search_partition_table Store.client (named neither_at_hq) (hq_store []) = Ok found ->
         forallb (resolved Store.client (hq_store [])) (default [] (locations neither_at_hq))
         = true ->
         outcome_of run
         = fail_json
             (if truthy_str (layout neither_at_hq)
              then "Only one of either layout or template_file must be defined"
              else "Either layout or template_file must be defined")
         /\ calls_of run
            = SearchPartitionTable (named neither_at_hq)
                :: location_lookups (default [] (locations neither_at_hq))).
Proof.
  apply (C1_validation_after_lookups _ ansible_2_10 Store.client Store.no_file neither_at_hq (hq_store [])).
  reflexivity.
Defined.

(** ** The comparison of the layouts *)

Lemma payload_layout (W : Type) (theforeman : Foreman W) (p : params) (w : W) (L : string) :
  py_get (payload theforeman p w L) "layout" = VStr L.
Proof.
  unfold payload, py_get.
  by rewrite lookup_insert_ne, lookup_insert_eq.
Qed.

(** The run of a present descriptor for which the search by name finds a
    record: the fetch by the id of that record, then nothing when the layout
    fetched equals the parameter [layout] or the resolved layout, and else the
    update by the id of the record fetched. *)
Lemma ensure_present_existing
    (W : Type) (module : AnsibleModule) (theforeman : Foreman W)
    (open_read : string -> read_result)
    (p : params) (w : W) (found : option dict) (ptable : dict) (L : string) :
  state p = present ->
  search_partition_table theforeman (named p) w = Ok found ->
  truthy_dict found = true ->
  forallb (resolved theforeman w) (default [] (locations p)) = true ->
  resolved_layout open_read p = Some L ->
  get_partition_table theforeman (py_get (default ∅ found) "id") w = Ok ptable ->
  let run := ensure module theforeman open_read p w in
  let fetch := GetPartitionTable (py_get (default ∅ found) "id") in
  let reads :=
    SearchPartitionTable (named p) :: location_lookups (default [] (locations p))
      ++ layout_reads p ++ [fetch] in
  if value_eqb (py_get ptable "layout") (of_param (layout p))
     || value_eqb (py_get ptable "layout") (VStr L)
  then run = (Returned (false, Some ptable), w, reads)
  else
    let data := payload theforeman p w L in
    let r := update_partition_table theforeman (py_get ptable "id") data w in
    run = (changed_or_fail "Could not update partition table: " r.1, r.2,
           reads ++ [UpdatePartitionTable (py_get ptable "id") data]).
Proof.
  intros Hst Hs Hf Hall HL Hget run fetch reads. subst run fetch reads.
  rewrite (ensure_resolved _ _ _ _ _ _ _ Hs Hall HL). cbv zeta.
  rewrite decide_action_run, Hf, Hst. cbv zeta. rewrite Hget, payload_layout.
  destruct (_ || _); rewrite ?outcome_of_run, ?store_of_run, ?calls_of_run;
    [reflexivity|].
  f_equal. rewrite <- app_comm_cons, <- !app_assoc. reflexivity.
Qed.

(** With a literal layout the two comparisons are one: the run leaves the
    record exactly when the layout fetched is the resolved layout. *)
Lemma literal_layout_compared
    (open_read : string -> read_result) (p : params) (L : string) (v : value) :
  truthy_str (layout p) = true ->
  resolved_layout open_read p = Some L ->
  value_eqb v (of_param (layout p)) || value_eqb v (VStr L) = true <-> v = VStr L.
Proof.
  unfold resolved_layout. intros Hl. rewrite Hl.
  destruct (truthy_str (template_file p)); [discriminate|].
  intros ->. cbn [of_param]. rewrite orb_diag. apply value_eqb_eq.
Qed.

(** With a layout from a file the same holds of a fetched layout that is a
    string and not empty. *)
Lemma file_layout_compared
    (open_read : string -> read_result) (p : params) (L s : string) :
  truthy_str (layout p) = false ->
  s <> "" ->
  value_eqb (VStr s) (of_param (layout p)) || value_eqb (VStr s) (VStr L) = true
  <-> VStr s = VStr L.
Proof.
  intros Hl Hs. rewrite <- value_eqb_eq.
  destruct (layout p) as [l |]; cbn [of_param value_eqb orb]; [| done].
  cbn [truthy_str] in Hl. apply negb_false_iff, String.eqb_eq in Hl as ->.
  apply String.eqb_neq in Hs. by rewrite Hs.
Qed.

(** C2. The comparison with the parameter [layout] leaves a record whose
    layout is not the resolved one.  The layout comes from the file
    [/etc/ptable], which holds [zfs on root], and the record found by name and
    fetched by id has a null layout, or an empty one with an empty [layout]
    next to the file: the run returns changed = false and issues no update,
    where the layout fetched differs from the resolved layout. *)
Theorem C2_stale_layout_not_updated :
  (let w := hq_store [stored_null_layout] in
   let run := ensure ansible_2_10 Store.client one_file from_file w in
   resolved_layout one_file from_file = Some "zfs on root"
   /\ get_partition_table Store.client (VInt 1) w = Ok stored_null_layout
   /\ py_get stored_null_layout "layout" <> VStr "zfs on root"
   /\ outcome_of run = Returned (false, Some stored_null_layout)
   /\ store_of run = w
   /\ calls_of run
      = [ SearchPartitionTable {[ "name" := VStr "FreeBSD" ]};
          OpenFile "/etc/ptable";
          GetPartitionTable (VInt 1) ])
  /\ (let w := hq_store [stored ""] in
      let run := ensure ansible_2_10 Store.client one_file from_file_empty_layout w in
      resolved_layout one_file from_file_empty_layout = Some "zfs on root"
      /\ get_partition_table Store.client (VInt 1) w = Ok (stored "")
      /\ py_get (stored "") "layout" <> VStr "zfs on root"
      /\ outcome_of run = Returned (false, Some (stored ""))
      /\ store_of run = w
      /\ calls_of run
         = [ SearchPartitionTable {[ "name" := VStr "FreeBSD" ]};
             OpenFile "/etc/ptable";
             GetPartitionTable (VInt 1) ]).
Proof.
  split; cbv zeta; repeat split; try (vm_compute; reflexivity);
    vm_compute; discriminate.
Qed.

(** ** The reference store *)

Section Records.

Variable f g : dict -> bool.

Lemma find_none_Forall (l : list dict) :
  find f l = None <-> Forall (fun r => f r = false) l.
Proof.
  induction l as [| x l IH]; cbn [find]; [by split|].
  destruct (f x) eqn:Hx.
  - split; [discriminate|]. intros H. apply Forall_cons in H as [H _]. congruence.
  - rewrite IH. split; [by constructor | by intros [_ H]%Forall_cons].
Qed.

Lemma find_app_new (l : list dict) (r : dict) :
  find f l = None -> f r = true -> find f (l ++ [r]) = Some r.
Proof.
  intros Hl Hr. induction l as [| x l IH]; cbn [find app] in *; [by rewrite Hr|].
  destruct (f x); [discriminate | by apply IH].
Qed.

Lemma find_replace_first_same (l : list dict) (r' : dict) :
  f r' = true -> find f l <> None -> find f (Store.replace_first f r' l) = Some r'.
Proof.
  intros Hr'. induction l as [| x l IH]; cbn [find Store.replace_first]; [done|].
  destruct (f x) eqn:Hx; cbn [find]; [by rewrite Hr' | by rewrite Hx].
Qed.

Lemma find_replace_first_other (l : list dict) (r r' : dict) :
  find f l = Some r -> g r = true -> f r' = true ->
  find f (Store.replace_first g r' l) = Some r'.
Proof.
  intros Hl Hg Hr'. induction l as [| x l IH]; cbn [find Store.replace_first] in *;
    [discriminate|].
  destruct (g x) eqn:Hgx; cbn [find]; [by rewrite Hr'|].
  destruct (f x) eqn:Hfx; [congruence | by apply IH].
Qed.

End Records.

Lemma has_eq (k : string) (v : value) (r : dict) :
  Store.has k v r = true <-> py_get r k = v.
Proof. apply value_eqb_eq. Qed.

Lemma has_neq (k : string) (v : value) (r : dict) :
  Store.has k v r = false <-> py_get r k <> v.
Proof. apply value_eqb_neq. Qed.

(** With names and ids as keys, the record found by name is gone once the
    first record with its id is removed. *)
Lemma find_remove_first (l : list dict) (v : value) (r : dict) :
  NoDup (map (fun r => py_get r "name") l) ->
  NoDup (map (fun r => py_get r "id") l) ->
  find (Store.has "name" v) l = Some r ->
  find (Store.has "name" v) (Store.remove_first (Store.has "id" (py_get r "id")) l) = None.
Proof.
  induction l as [| x l IH]; cbn [find Store.remove_first map]; [done|].
  intros [Hnx Hn]%NoDup_cons [Hix Hi]%NoDup_cons.
  destruct (Store.has "name" v x) eqn:Hx.
  - intros [= <-]. replace (Store.has "id" (py_get x "id") x) with true
      by (symmetry; by apply has_eq).
    apply find_none_Forall, Forall_forall. intros y Hy.
    apply has_neq. apply has_eq in Hx. intros Hyv. apply Hnx.
    rewrite <- Hx in Hyv. rewrite <- Hyv.
    apply list_elem_of_fmap. by exists y.
  - intros Hr. destruct (Store.has "id" (py_get r "id") x) eqn:Hxr.
    + exfalso. apply Hix. apply has_eq in Hxr. rewrite Hxr.
      apply list_elem_of_fmap. exists r. split; [done|].
      apply list_elem_of_In. by apply find_some in Hr as [Hr _].
    + cbn [find]. rewrite Hx. by apply IH.
Qed.

Lemma fresh_id_above (l : list dict) :
  Forall (fun r => forall n, py_get r "id" = VInt n -> n < Store.fresh_id l) l.
Proof.
  induction l as [| x l IH]; [done|].
  unfold Store.fresh_id in *. cbn [fold_right].
  constructor.
  - intros n ->. lia.
  - eapply Forall_impl; [exact IH|]. cbn. intros r Hr n Hn.
    specialize (Hr n Hn). destruct (py_get x "id"); lia.
Qed.

Lemma find_fresh_id (l : list dict) :
  find (Store.has "id" (VInt (Store.fresh_id l))) l = None.
Proof.
  apply find_none_Forall. eapply Forall_impl; [apply fresh_id_above|].
  cbn. intros r Hr. apply has_neq. intros Hid. specialize (Hr _ Hid). lia.
Qed.

Section Returned.

Context {W : Type}.
Variable module : AnsibleModule.
Variable theforeman : Foreman W.
Variable open_read : string -> read_result.

Lemma get_location_ids_from_returned
    (locs : list string) (res ids : list value) (w : W) :
  outcome_of (get_location_ids_from module theforeman res locs w) = Returned ids ->
  forallb (resolved theforeman w) locs = true.
Proof.
  revert res. induction locs as [| loc locs IH]; intros res; [done|].
  cbn [get_location_ids_from forallb]. rewrite bind_run.
  unfold reading at 1, resolved at 1, location_request.
  rewrite ?outcome_of_run, ?store_of_run, ?calls_of_run.
  destruct (search_location _ _ _) as [location | message]; [| discriminate].
  destruct (truthy_dict location); cbn [negb andb]; [| discriminate].
  cbv zeta. rewrite ?outcome_of_run. apply IH.
Qed.

Lemma with_locations_returned (p : params) (data data' : dict) (w : W) :
  outcome_of (with_locations module theforeman p data w) = Returned data' ->
  forallb (resolved theforeman w) (default [] (locations p)) = true.
Proof.
  unfold with_locations. destruct (truthy_list (locations p)) eqn:Hl.
  - rewrite bind_run. unfold get_location_ids.
    destruct (outcome_of (get_location_ids_from _ _ _ _ _)) as [ids |] eqn:Hids;
      [| discriminate].
    intros _. by apply get_location_ids_from_returned in Hids.
  - by destruct (locations p) as [[| ? ?] |].
Qed.

(** A run that returns went through the search, the locations and the
    layout, and ends as the decision does. *)
Lemma ensure_returned (p : params) (w w' : W) (r : bool * option dict) (tr : list call) :
  ensure module theforeman open_read p w = (Returned r, w', tr) ->
  exists (found : option dict) (L : string),
    search_partition_table theforeman (named p) w = Ok found
    /\ forallb (resolved theforeman w) (default [] (locations p)) = true
    /\ resolved_layout open_read p = Some L
    /\ outcome_of (decide_action theforeman p found (payload theforeman p w L) w)
       = Returned r
    /\ store_of (decide_action theforeman p found (payload theforeman p w L) w) = w'.
Proof.
  intros Hrun.
  assert (exists found, search_partition_table theforeman (named p) w = Ok found)
    as [found Hs].
  { rewrite ensure_run in Hrun.
    destruct (search_partition_table _ _ _); [eauto | discriminate]. }
  assert (forallb (resolved theforeman w) (default [] (locations p)) = true) as Hall.
  { rewrite ensure_run, Hs in Hrun. cbv zeta in Hrun.
    destruct (outcome_of (with_locations _ _ _ _ _)) eqn:Hl; [| discriminate].
    by apply with_locations_returned in Hl. }
  assert (exists L, resolved_layout open_read p = Some L) as [L HL].
  { rewrite ensure_run, Hs in Hrun. cbv zeta in Hrun.
    destruct (outcome_of (with_locations _ _ _ _ _)); [| discriminate].
    destruct (resolved_layout _ _); [eauto | discriminate]. }
  exists found, L. rewrite (ensure_resolved _ _ _ _ _ _ _ Hs Hall HL) in Hrun.
  cbv zeta in Hrun. by injection Hrun as -> -> _.
Qed.

End Returned.

Lemma store_search (p : params) (s : Store.store) :
  search_partition_table Store.client (named p) s
  = Ok (find (Store.has "name" (VStr (name p))) (Store.ptables s)).
Proof.
  cbn [search_partition_table Store.client]. unfold named, py_get at 1.
  by rewrite lookup_singleton_eq.
Qed.

Lemma payload_name (W : Type) (theforeman : Foreman W) (p : params) (w : W) (L : string) :
  py_get (payload theforeman p w L) "name" = VStr (name p).
Proof.
  unfold payload, py_get. rewrite !lookup_insert_ne by done.
  destruct (truthy_list (locations p)).
  - by rewrite lookup_insert_ne, lookup_singleton_eq.
  - by rewrite lookup_singleton_eq.
Qed.

Lemma payload_id (W : Type) (theforeman : Foreman W) (p : params) (w : W) (L : string) :
  payload theforeman p w L !! "id" = None.
Proof.
  unfold payload. rewrite !lookup_insert_ne by done.
  destruct (truthy_list (locations p)).
  - by rewrite lookup_insert_ne, lookup_singleton_ne.
  - by rewrite lookup_singleton_ne.
Qed.

Lemma truthy_dict_with (r : dict) (k : string) (v : value) :
  v <> VNone -> py_get r k = v -> truthy_dict (Some r) = true.
Proof.
  intros Hv Hr. cbn [truthy_dict]. apply negb_true_iff, bool_decide_eq_false.
  intros ->. unfold py_get in Hr. rewrite lookup_empty in Hr. by cbn in Hr.
Qed.

Lemma found_by_name (l : list dict) (n : string) (found : option dict) :
  find (Store.has "name" (VStr n)) l = found ->
  truthy_dict found = false -> found = None.
Proof.
  intros <- Ht. destruct (find _ l) as [r |] eqn:Hr; [| done].
  apply find_some in Hr as [_ Hr%has_eq].
  by rewrite (truthy_dict_with r "name" (VStr n)) in Ht.
Qed.

(** Idempotence on the reference store.  After a run that returns, the run
    of the same descriptor on the store it leaves returns changed = false and
    leaves that store; for a present descriptor the record it returns has the
    resolved layout, or the layout that equals the parameter [layout]. *)
Theorem ensure_twice_unchanged
    (module : AnsibleModule)
    (open_read : string -> read_result) (p : params) (s s1 : Store.store)
    (r1 : bool * option dict) (tr1 : list call) :
  well_keyed s ->
  ensure module Store.client open_read p s = (Returned r1, s1, tr1) ->
  exists (r2 : option dict) (tr2 : list call),
    ensure module Store.client open_read p s1 = (Returned (false, r2), s1, tr2)
    /\ (state p = present ->
        exists (ptable : dict) (L : string),
          r2 = Some ptable
          /\ resolved_layout open_read p = Some L
          /\ (py_get ptable "layout" = VStr L
              \/ py_get ptable "layout" = of_param (layout p))).
Proof.
  intros [Hnames Hids] Hrun.
  destruct (ensure_returned _ _ _ _ _ _ _ _ Hrun) as (found & L & Hs & Hall & HL & Hout & Hst).
  rewrite store_search in Hs. injection Hs as Hs.
  rewrite decide_action_run in Hout, Hst.
  destruct (truthy_dict found) eqn:Hfound, (state p) eqn:Hstate; cbv zeta in Hout, Hst.
  - (* a record is found and asked for *)
    destruct found as [rf |]; [| discriminate]. cbn [from_option id] in *.
    destruct (get_partition_table Store.client (py_get rf "id") s) as [pt | ?] eqn:Hget;
      [| discriminate].
    destruct (_ || _) eqn:Hsame.
    + rewrite outcome_of_run in Hout. rewrite store_of_run in Hst. subst s1.
      injection Hout as <-. exists (Some pt), tr1. split; [done|].
      intros _. exists pt, L. repeat split; [done|].
      rewrite payload_layout in Hsame.
      apply orb_true_iff in Hsame as [H | H]; apply value_eqb_eq in H; auto.
    + rewrite outcome_of_run in Hout. rewrite store_of_run in Hst.
      cbn [get_partition_table update_partition_table Store.client] in Hget, Hout, Hst.
      destruct (find (Store.has "id" (py_get rf "id")) (Store.ptables s)) as [pt0 |] eqn:Hpt;
        [| discriminate].
      injection Hget as ->.
      pose proof (find_some _ _ Hpt) as [_ Hptid%has_eq].
      rewrite Hptid, Hpt in Hout, Hst. cbn [fst snd changed_or_fail] in Hout, Hst.
      injection Hout as <-. set (r' := payload Store.client p s L ∪ pt) in *.
      assert (py_get r' "name" = VStr (name p)) as Hname.
      { unfold py_get, r'.
        pose proof (payload_name _ Store.client p s L) as Hn. unfold py_get in Hn.
        destruct (payload Store.client p s L !! "name") as [v |] eqn:Hv; [| done].
        by rewrite (lookup_union_Some_l _ _ _ _ Hv). }
      assert (py_get r' "id" = py_get rf "id") as Hid.
      { unfold py_get, r'. rewrite lookup_union_r by apply payload_id. exact Hptid. }
      assert (py_get r' "layout" = VStr L) as Hlayout.
      { unfold py_get, r'.
        pose proof (payload_layout _ Store.client p s L) as Hn. unfold py_get in Hn.
        destruct (payload Store.client p s L !! "layout") as [v |] eqn:Hv; [| done].
        by rewrite (lookup_union_Some_l _ _ _ _ Hv). }
      assert (search_partition_table Store.client (named p) s1 = Ok (Some r')) as Hs1.
      { rewrite store_search, <- Hst. cbn [Store.ptables]. f_equal.
        apply (find_replace_first_other _ _ _ rf); [done | by apply has_eq | by apply has_eq]. }
      assert (payload Store.client p s1 L = payload Store.client p s L) as Hpay
        by (by rewrite <- Hst).
      assert (forallb (resolved Store.client s1) (default [] (locations p)) = true) as Hall1
        by (by rewrite <- Hst).
      rewrite (ensure_resolved _ _ _ _ _ _ _ Hs1 Hall1 HL). cbv zeta.
      rewrite decide_action_run, (truthy_dict_with r' "name" (VStr (name p))), Hstate
        by done.
      cbv zeta. cbn [from_option id]. rewrite Hid.
      assert (get_partition_table Store.client (py_get rf "id") s1 = Ok r') as Hget1.
      { rewrite <- Hst. cbn [get_partition_table Store.client Store.ptables].
        rewrite find_replace_first_same; [done | by apply has_eq | by rewrite Hpt]. }
      rewrite Hget1, Hlayout, payload_layout, value_eqb_refl, orb_true_r.
      rewrite ?outcome_of_run, ?store_of_run. eexists _, _. split; [reflexivity|].
      intros _. exists r', L. auto.
  - (* a record is found and not wanted *)
    destruct found as [rf |]; [| discriminate]. cbn [from_option id] in *.
    rewrite outcome_of_run in Hout. rewrite store_of_run in Hst.
    cbn [delete_partition_table Store.client] in Hout, Hst.
    destruct (find (Store.has "id" (py_get rf "id")) (Store.ptables s)) as [pt |] eqn:Hpt;
      [| discriminate].
    cbn [fst snd] in Hst.
    assert (search_partition_table Store.client (named p) s1 = Ok None) as Hs1.
    { rewrite store_search, <- Hst. cbn [Store.ptables]. f_equal.
      by apply find_remove_first. }
    assert (forallb (resolved Store.client s1) (default [] (locations p)) = true) as Hall1
      by (by rewrite <- Hst).
    rewrite (ensure_resolved _ _ _ _ _ _ _ Hs1 Hall1 HL). cbv zeta.
    rewrite decide_action_run, Hstate. cbn [truthy_dict].
    rewrite ?outcome_of_run, ?store_of_run. eexists _, _. split; [reflexivity|].
    discriminate.
  - (* no record is found and one is asked for *)
    apply (found_by_name _ _ _ Hs) in Hfound as ->.
    rewrite outcome_of_run in Hout. rewrite store_of_run in Hst.
    cbn [create_partition_table Store.client fst snd changed_or_fail] in Hout, Hst.
    set (r' := <[ "id" := VInt (Store.fresh_id (Store.ptables s)) ]>
                 (payload Store.client p s L)) in *.
    assert (py_get r' "name" = VStr (name p)) as Hname.
    { unfold py_get, r'. rewrite lookup_insert_ne by done. apply payload_name. }
    assert (py_get r' "id" = VInt (Store.fresh_id (Store.ptables s))) as Hid.
    { unfold py_get, r'. by rewrite lookup_insert_eq. }
    assert (py_get r' "layout" = VStr L) as Hlayout.
    { unfold py_get, r'. rewrite lookup_insert_ne by done. apply payload_layout. }
    assert (search_partition_table Store.client (named p) s1 = Ok (Some r')) as Hs1.
    { rewrite store_search, <- Hst. cbn [Store.ptables]. f_equal.
      apply find_app_new; [done | by apply has_eq]. }
    assert (payload Store.client p s1 L = payload Store.client p s L) as Hpay
      by (by rewrite <- Hst).
    assert (forallb (resolved Store.client s1) (default [] (locations p)) = true) as Hall1
      by (by rewrite <- Hst).
    rewrite (ensure_resolved _ _ _ _ _ _ _ Hs1 Hall1 HL). cbv zeta.
    rewrite decide_action_run, (truthy_dict_with r' "name" (VStr (name p))), Hstate
      by done.
    cbv zeta. cbn [from_option id]. rewrite Hid.
    assert (get_partition_table Store.client (VInt (Store.fresh_id (Store.ptables s))) s1
            = Ok r') as Hget1.
    { rewrite <- Hst. cbn [get_partition_table Store.client Store.ptables].
      rewrite (find_app_new _ _ r'); [done | apply find_fresh_id | by apply has_eq]. }
    rewrite Hget1, Hlayout, payload_layout, value_eqb_refl, orb_true_r.
    rewrite ?outcome_of_run, ?store_of_run. eexists _, _. split; [reflexivity|].
    intros _. exists r', L. auto.
  - (* no record is found and none is wanted *)
    rewrite outcome_of_run in Hout. rewrite store_of_run in Hst. subst s1.
    injection Hout as <-. exists found, tr1. split; [done | discriminate].
Qed.

(** The descriptor of [FreeBSD] on the empty store: the first run creates
    the record, the second returns it unchanged. *)
Example ensure_twice_freebsd :
  let run1 := ensure ansible_2_10 Store.client Store.no_file freebsd empty_store in
  exists (r2 : option dict) (tr2 : list call),
    outcome_of run1
    = Returned (true, Some (<[ "id" := VInt 1 ]>
                              (payload Store.client freebsd empty_store "zfs on root")))
    /\ ensure ansible_2_10 Store.client Store.no_file freebsd (store_of run1)
       = (Returned (false, r2), store_of run1, tr2).
Proof.
  cbv zeta.
  destruct (ensure_twice_unchanged ansible_2_10 Store.no_file freebsd empty_store
              (store_of (ensure ansible_2_10 Store.client Store.no_file freebsd empty_store))
              (true, Some (<[ "id" := VInt 1 ]>
                             (payload Store.client freebsd empty_store "zfs on root")))
              (calls_of (ensure ansible_2_10 Store.client Store.no_file freebsd empty_store)))
    as (r2 & tr2 & H2 & _).
  - split; constructor.
  - reflexivity.
  - exists r2, tr2. split; [reflexivity | exact H2].
Qed.

(** ** Running twice *)

(** C3. On the reference store a second run returns changed = false
    ([ensure_twice_unchanged]), but the layout it ends with need not be the
    resolved one.  At the descriptors and stores of the comparison above, two
    runs in a row both return changed = false and leave the record, whose
    layout is not the resolved layout of the descriptor. *)
Theorem C3_stale_layout_after_two_runs :
  (let w := hq_store [stored_null_layout] in
   let run1 := ensure ansible_2_10 Store.client one_file from_file w in
   let run2 := ensure ansible_2_10 Store.client one_file from_file (store_of run1) in
   resolved_layout one_file from_file = Some "zfs on root"
   /\ outcome_of run1 = Returned (false, Some stored_null_layout)
   /\ outcome_of run2 = Returned (false, Some stored_null_layout)
   /\ Store.ptables (store_of run2) = [stored_null_layout]
   /\ py_get stored_null_layout "layout" <> VStr "zfs on root")
  /\ (let w := hq_store [stored ""] in
      let run1 := ensure ansible_2_10 Store.client one_file from_file_empty_layout w in
      let run2 := ensure ansible_2_10 Store.client one_file from_file_empty_layout (store_of run1) in
      resolved_layout one_file from_file_empty_layout = Some "zfs on root"
      /\ outcome_of run1 = Returned (false, Some (stored ""))
      /\ outcome_of run2 = Returned (false, Some (stored ""))
      /\ Store.ptables (store_of run2) = [stored ""]
      /\ py_get (stored "") "layout" <> VStr "zfs on root").
Proof.
  split; cbv zeta; repeat split; try (vm_compute; reflexivity);
    vm_compute; discriminate.
Qed.

(** * Further properties *)

(** ** The lookup of the locations *)

(** When the client finds every name, [get_location_ids] returns one id per
    name, in the order of the names: the [id] of the location found for it,
    [None] when that location has none.  It issues one lookup per name, in
    that order, and leaves the store. *)
Theorem get_location_ids_in_order
    (W : Type) (module : AnsibleModule) (theforeman : Foreman W) (locs : list string) (w : W) :
  forallb (resolved theforeman w) locs = true ->
  exists ids : list value,
    get_location_ids module theforeman locs w = (Returned ids, w, location_lookups locs)
    /\ length ids = length locs
    /\ forall (i : nat) (loc : string),
         locs !! i = Some loc ->
         exists location : dict,
           search_location theforeman {[ "name" := VStr loc ]} w = Ok (Some location)
           /\ ids !! i = Some (default VNone (location !! "id")).
Proof.
  intros Hall. exists (map (location_id theforeman w) locs).
  unfold get_location_ids. rewrite (get_location_ids_from_resolved _ _ _ [] w Hall).
  split; [reflexivity|]. split; [apply length_map|].
  intros i loc Hi. rewrite list_lookup_fmap, Hi. cbn [fmap option_fmap option_map].
  rewrite forallb_forall in Hall.
  assert (resolved theforeman w loc = true) as Hloc.
  { apply Hall, list_elem_of_In, list_elem_of_lookup. eauto. }
  unfold resolved, location_id, location_request in *.
  destruct (search_location _ _ _) as [[location |] | message]; try discriminate.
  exists location. split; reflexivity.
Qed.

Lemma get_location_ids_in_order_witness :
  exists ids : list value,
    get_location_ids ansible_2_10 Store.client ["HQ"; "Lab"; "HQ"] (lab_store [])
    = (Returned ids, lab_store [], location_lookups ["HQ"; "Lab"; "HQ"])
    /\ length ids = 3%nat
    /\ forall (i : nat) (loc : string),
         ["HQ"; "Lab"; "HQ"] !! i = Some loc ->
         exists location : dict,
           search_location Store.client {[ "name" := VStr loc ]} (lab_store [])
           = Ok (Some location)
           /\ ids !! i = Some (default VNone (location !! "id")).
Proof.
  apply (get_location_ids_in_order _ ansible_2_10 Store.client ["HQ"; "Lab"; "HQ"] (lab_store [])).
  reflexivity.
Defined.

(** When the lookup of a name raises, the names before it being found,
    [get_location_ids] fails at that lookup, which is its last call, and the
    store is left.  There the source hands [fail_json], by position, the
    message of the client behind [Could not get Locations: ]: the process ends
    with that message under a framework that takes a message by position, and
    with the [TypeError] of the call under one that does not. *)
Theorem get_location_ids_client_error
    (W : Type) (module : AnsibleModule) (theforeman : Foreman W)
    (pre post : list string) (loc message : string) (w : W) :
  forallb (resolved theforeman w) pre = true ->
  search_location theforeman {[ "name" := VStr loc ]} w = ForemanError message ->
  get_location_ids module theforeman (pre ++ loc :: post) w
  = (fail_json (by_position module ("Could not get Locations: " +:+ message)), w,
     location_lookups (pre ++ [loc])).
Proof.
  unfold get_location_ids. generalize (@nil value) as res.
  induction pre as [| x pre IH]; intros res Hall Herr.
  - cbn [app get_location_ids_from location_lookups map].
    unfold bind, reading, fail, location_request. by rewrite Herr.
  - cbn [forallb] in Hall. apply andb_true_iff in Hall as [Hx Hall].
    cbn [app get_location_ids_from location_lookups map].
    unfold bind, reading, resolved, location_request in *.
    destruct (search_location theforeman {[ "name" := VStr x ]} w)
      as [location | ?]; [| discriminate].
    rewrite Hx. cbn [negb]. by rewrite (IH _ Hall Herr).
Qed.

Lemma get_location_ids_client_error_witness :
  get_location_ids ansible_2_9 (raising_at "Lab") (["HQ"] ++ "Lab" :: ["Attic"]) (hq_store [])
  = (fail_json (by_position ansible_2_9 ("Could not get Locations: " +:+ "Connection refused")),
     hq_store [], location_lookups (["HQ"] ++ ["Lab"])).
Proof.
  apply (get_location_ids_client_error _ ansible_2_9 (raising_at "Lab") ["HQ"] ["Attic"] "Lab");
    reflexivity.
Defined.

Lemma get_location_ids_from_failed
    (W : Type) (module : AnsibleModule) (theforeman : Foreman W) (locs : list string) (res : list value) (w : W)
    (msg : string) :
  outcome_of (get_location_ids_from module theforeman res locs w) = fail_json msg ->
  exists n : nat,
    (1 <= n)%nat /\ (n <= length locs)%nat
    /\ calls_of (get_location_ids_from module theforeman res locs w)
       = location_lookups (take n locs).
Proof.
  revert res. induction locs as [| loc locs IH]; intros res Hout; [discriminate|].
  cbn [get_location_ids_from] in *. unfold bind, reading in *.
  destruct (search_location _ _ _) as [location | message];
    [| exists 1%nat; cbn [length]; repeat split; lia].
  destruct (negb (truthy_dict location));
    [exists 1%nat; cbn [length]; repeat split; lia|].
  specialize (IH (res ++ [py_get (default ∅ location) "id"])).
  unfold outcome_of, calls_of in *.
  destruct (get_location_ids_from _ _ _ _ _) as [[o w'] t]. cbn [fst snd] in *.
  destruct o as [ids | msg']; [discriminate|].
  destruct (IH Hout) as (n & Hn1 & Hn & Hcalls).
  exists (S n). cbn [length take fst snd]. rewrite Hcalls.
  repeat split; lia.
Qed.

(** [get_location_ids] leaves the store and issues nothing but lookups of
    locations: those of the first names of the list, in order, at most one per
    name.  It looks every name up when it returns, with one id per name, and
    at least one when it fails. *)
Theorem get_location_ids_lookups_only
    (W : Type) (module : AnsibleModule) (theforeman : Foreman W) (locs : list string) (w : W) :
  let run := get_location_ids module theforeman locs w in
  store_of run = w
  /\ exists n : nat,
       (n <= length locs)%nat
       /\ calls_of run = location_lookups (take n locs)
       /\ (forall ids, outcome_of run = Returned ids ->
             n = length locs /\ length ids = length locs)
       /\ (forall msg, outcome_of run = fail_json msg -> (1 <= n)%nat).
Proof.
  intros run. subst run. unfold get_location_ids.
  split; [apply get_location_ids_from_store|].
  destruct (outcome_of (get_location_ids_from module theforeman [] locs w)) as [ids | msg] eqn:Hout.
  - pose proof (get_location_ids_from_returned _ _ _ _ _ _ Hout) as Hall.
    rewrite (get_location_ids_from_resolved _ _ _ [] w Hall) in Hout |- *.
    exists (length locs). rewrite firstn_all, calls_of_run, outcome_of_run in *.
    split; [done|]. split; [done|]. split; [| discriminate].
    intros ids' [= <-]. split; [done|]. injection Hout as <-. apply length_map.
  - destruct (get_location_ids_from_failed _ module theforeman locs [] w msg Hout)
      as (n & Hn1 & Hn & Hcalls).
    exists n. split; [done|]. split; [done|]. split; [discriminate | done].
Qed.

(** ** The failures of a run *)

Lemma get_location_ids_from_cause
    (W : Type) (module : AnsibleModule) (theforeman : Foreman W)
    (locs : list string) (res : list value) (w : W) (text : string) :
  outcome_of (get_location_ids_from module theforeman res locs w) = fail_json text ->
  exists (pre : list string) (loc : string) (post : list string),
    locs = pre ++ loc :: post
    /\ forallb (resolved theforeman w) pre = true
    /\ ((unresolved theforeman w loc = true
         /\ text = by_position module ("Could not find Location " +:+ loc))
        \/ (exists message,
              search_location theforeman {[ "name" := VStr loc ]} w = ForemanError message
              /\ text = by_position module ("Could not get Locations: " +:+ message))).
Proof.
  revert res. induction locs as [| loc locs IH]; intros res Hout; [discriminate|].
  cbn [get_location_ids_from] in Hout. unfold bind, reading in Hout.
  destruct (search_location theforeman {[ "name" := VStr loc ]} w)
    as [location | message] eqn:Hsl.
  - destruct (truthy_dict location) eqn:Ht; cbn [negb] in Hout.
    + specialize (IH (res ++ [py_get (default ∅ location) "id"])).
      unfold outcome_of in *.
      destruct (get_location_ids_from _ _ _ _ _) as [[o w'] t]. cbn [fst snd] in *.
      destruct o as [ids | msg']; [discriminate|].
      destruct (IH Hout) as (pre & l & post & -> & Hpre & Hcause).
      exists (loc :: pre), l, post. split; [done|]. split; [| done].
      cbn [forallb]. rewrite Hpre, andb_true_r.
      unfold resolved, location_request. by rewrite Hsl.
    + injection Hout as <-. exists [], loc, locs. split; [done|]. split; [done|].
      left. split; [| done]. unfold unresolved, location_request. by rewrite Hsl, Ht.
  - injection Hout as <-. exists [], loc, locs. split; [done|]. split; [done|].
    right. by exists message.
Qed.

Lemma with_locations_cause
    (W : Type) (module : AnsibleModule) (theforeman : Foreman W)
    (p : params) (data : dict) (w : W) (text : string) :
  outcome_of (with_locations module theforeman p data w) = fail_json text ->
  exists (pre : list string) (loc : string) (post : list string),
    default [] (locations p) = pre ++ loc :: post
    /\ forallb (resolved theforeman w) pre = true
    /\ ((unresolved theforeman w loc = true
         /\ text = by_position module ("Could not find Location " +:+ loc))
        \/ (exists message,
              search_location theforeman {[ "name" := VStr loc ]} w = ForemanError message
              /\ text = by_position module ("Could not get Locations: " +:+ message))).
Proof.
  unfold with_locations. destruct (truthy_list (locations p)); [| discriminate].
  rewrite bind_run. unfold get_location_ids.
  destruct (outcome_of (get_location_ids_from _ _ _ _ _)) as [ids | msg'] eqn:Hout;
    [discriminate|].
  intros [= <-]. by apply get_location_ids_from_cause in Hout.
Qed.

Lemma layout_failure_cause (open_read : string -> read_result) (p : params) :
  resolved_layout open_read p = None ->
  (truthy_str (layout p) = truthy_str (template_file p)
   /\ layout_failure open_read p
      = if truthy_str (layout p)
        then "Only one of either layout or template_file must be defined"
        else "Either layout or template_file must be defined")
  \/ (truthy_str (layout p) = false
      /\ exists (path class_name : string) (message : option string),
           template_file p = Some path
           /\ open_read path = IOError class_name message
           /\ layout_failure open_read p = could_not_open path class_name message).
Proof.
  unfold resolved_layout, layout_failure, validation_message.
  destruct (truthy_str (layout p)) eqn:Hl, (truthy_str (template_file p)) eqn:Ht;
    cbn [Bool.eqb]; try (intros _; by left).
  - intros Hnone. rewrite Hnone in Hl. discriminate.
  - destruct (template_file p) as [path |]; [| discriminate]. cbn [from_option id].
    destruct (open_read path) as [s | class_name message] eqn:Hopen; [discriminate|].
    intros _. right. split; [done|]. by exists path, class_name, message.
Qed.

Lemma changed_or_fail_cause (prefix : string) (r : response dict) (text : string) :
  changed_or_fail prefix r = fail_json text ->
  exists message, r = ForemanError message /\ text = prefix +:+ message.
Proof. destruct r as [d | message]; [discriminate|]. intros [= <-]. eauto. Qed.

(** Every failure of a run has its cause in the source, and its message is
    that of the cause.  The search by name raised, and the message is that of
    the client behind [Could not get partition table: ].  Or the lookup of a
    location, the locations before it being found, found nothing or raised,
    and the text handed to [fail_json] by position names the location or
    carries the message of the client.  Or the locations are found and the
    layout does not resolve: the validation failed, with its message, or the
    file could not be read.  Or everything resolved and a call of the decision
    raised: the fetch, or the one create, update or delete of the run, with
    the message of the client behind the words of that call. *)
Theorem ensure_failure_messages
    (W : Type) (module : AnsibleModule) (theforeman : Foreman W)
    (open_read : string -> read_result)
    (p : params) (w : W) (text : string) :
  let run := ensure module theforeman open_read p w in
  outcome_of run = fail_json text ->
  (exists message,
      search_partition_table theforeman {[ "name" := VStr (name p) ]} w
      = ForemanError message
      /\ text = "Could not get partition table: " +:+ message)
  \/ exists found : option dict,
       search_partition_table theforeman {[ "name" := VStr (name p) ]} w = Ok found
       /\ ((exists (pre : list string) (loc : string) (post : list string),
               default [] (locations p) = pre ++ loc :: post
               /\ forallb (resolved theforeman w) pre = true
               /\ ((unresolved theforeman w loc = true
                    /\ text = by_position module ("Could not find Location " +:+ loc))
                   \/ (exists message,
                         search_location theforeman {[ "name" := VStr loc ]} w
                         = ForemanError message
                         /\ text
                            = by_position module ("Could not get Locations: " +:+ message))))
           \/ (forallb (resolved theforeman w) (default [] (locations p)) = true
               /\ ((truthy_str (layout p) = truthy_str (template_file p)
                    /\ text
                       = if truthy_str (layout p)
                         then "Only one of either layout or template_file must be defined"
                         else "Either layout or template_file must be defined")
                   \/ (truthy_str (layout p) = false
                       /\ exists (path class_name : string) (message : option string),
                            template_file p = Some path
                            /\ open_read path = IOError class_name message
                            /\ text = could_not_open path class_name message)
                   \/ (exists L : string,
                         resolved_layout open_read p = Some L
                         /\ ((state p = present
                              /\ exists (ptable : dict) (message : string),
                                   found = Some ptable
                                   /\ get_partition_table theforeman
                                        (default VNone (ptable !! "id")) w
                                      = ForemanError message
                                   /\ text
                                      = "Could not get partition table to update: "
                                          +:+ message)
                             \/ (exists (c : call) (message : string),
                                   mutations (calls_of run) = [c]
                                   /\ answer theforeman c w = Some (ForemanError message)
                                   /\ text = prefix_of c +:+ message)))))).
Proof.
  intros run. subst run.
  run_cases module theforeman open_read p w; intros H; try discriminate;
    try (right; exists found; split; [exact Hsearch|]);
    try pose proof (with_locations_returned _ _ _ _ _ _ Hloc) as Hall;
    rewrite ?mutations_search, ?mutations_app, ?mutations_location_lookups,
      ?mutations_layout_reads.
  - (* the update *)
    apply changed_or_fail_cause in H as (m & Hm & ->).
    right. split; [done|]. do 2 right. exists L. split; [done|]. right.
    eexists _, m. split; [reflexivity|]. cbn [answer prefix_of]. by rewrite Hm.
  - (* the fetch *)
    injection H as <-.
    right. split; [done|]. do 2 right. exists L. split; [done|]. left.
    split; [done|]. destruct found as [d |]; [| discriminate].
    exists d, message. by repeat split.
  - (* the delete *)
    apply changed_or_fail_cause in H as (m & Hm & ->).
    right. split; [done|]. do 2 right. exists L. split; [done|]. right.
    eexists _, m. split; [reflexivity|]. cbn [answer prefix_of]. by rewrite Hm.
  - (* the create *)
    apply changed_or_fail_cause in H as (m & Hm & ->).
    right. split; [done|]. do 2 right. exists L. split; [done|]. right.
    eexists _, m. split; [reflexivity|]. cbn [answer prefix_of]. by rewrite Hm.
  - (* the layout *)
    injection H as <-. right. split; [done|].
    destruct (layout_failure_cause open_read p HL) as [[Hv ->] | (Hl & Hfile)].
    + by left.
    + right. left. split; [done|].
      destruct Hfile as (path & class_name & message & Ht & Hopen & ->).
      by exists path, class_name, message.
  - (* the locations *)
    injection H as <-. left. by apply (with_locations_cause _ _ _ _ _ _ _ Hloc).
  - (* the search *)
    injection H as <-. left. exists message. split; [exact Hsearch | done].
Qed.

Lemma ensure_failure_messages_witness :
  let run :=
    ensure ansible_2_9 Store.client no_file_py3 (freebsd_at ["HQ"; "Lab"]) (hq_store []) in
  let text := "TypeError: fail_json() takes 1 positional argument but 2 were given" in
  (exists message,
      search_partition_table Store.client {[ "name" := VStr "FreeBSD" ]} (hq_store [])
      = ForemanError message
      /\ text = "Could not get partition table: " +:+ message)
  \/ exists found : option dict,
       search_partition_table Store.client {[ "name" := VStr "FreeBSD" ]} (hq_store [])
       = Ok found
       /\ ((exists (pre : list string) (loc : string) (post : list string),
               ["HQ"; "Lab"] = pre ++ loc :: post
               /\ forallb (resolved Store.client (hq_store [])) pre = true
               /\ ((unresolved Store.client (hq_store []) loc = true
                    /\ text = by_position ansible_2_9 ("Could not find Location " +:+ loc))
                   \/ (exists message,
                         search_location Store.client {[ "name" := VStr loc ]} (hq_store [])
                         = ForemanError message
                         /\ text
                            = by_position ansible_2_9
                                ("Could not get Locations: " +:+ message))))
           \/ (forallb (resolved Store.client (hq_store [])) ["HQ"; "Lab"] = true
               /\ ((truthy_str (Some "zfs on root") = truthy_str None
                    /\ text
                       = if truthy_str (Some "zfs on root")
                         then "Only one of either layout or template_file must be defined"
                         else "Either layout or template_file must be defined")
                   \/ (truthy_str (Some "zfs on root") = false
                       /\ exists (path class_name : string) (message : option string),
                            None = Some path
                            /\ no_file_py3 path = IOError class_name message
                            /\ text = could_not_open path class_name message)
                   \/ (exists L : string,
                         resolved_layout no_file_py3 (freebsd_at ["HQ"; "Lab"]) = Some L
                         /\ ((present = present
                              /\ exists (ptable : dict) (message : string),
                                   found = Some ptable
                                   /\ get_partition_table Store.client
                                        (default VNone (ptable !! "id")) (hq_store [])
                                      = ForemanError message
                                   /\ text
                                      = "Could not get partition table to update: "
                                          +:+ message)
                             \/ (exists (c : call) (message : string),
                                   mutations (calls_of run) = [c]
                                   /\ answer Store.client c (hq_store [])
                                      = Some (ForemanError message)
                                   /\ text = prefix_of c +:+ message)))))).
Proof.
  apply (ensure_failure_messages _ ansible_2_9 Store.client no_file_py3
           (freebsd_at ["HQ"; "Lab"]) (hq_store [])).
  reflexivity.
Defined.

(** When the search by name raises, the run fails with the message of the
    client behind [Could not get partition table: ]; the search is its only
    call: no location is looked up, no file is read, and the store is left. *)
Theorem ensure_search_error
    (W : Type) (module : AnsibleModule) (theforeman : Foreman W)
    (open_read : string -> read_result)
    (p : params) (w : W) (message : string) :
  search_partition_table theforeman {[ "name" := VStr (name p) ]} w = ForemanError message ->
  ensure module theforeman open_read p w
  = (fail_json ("Could not get partition table: " +:+ message), w,
     [SearchPartitionTable {[ "name" := VStr (name p) ]}]).
Proof.
  intros Herr. rewrite ensure_run. unfold named. by rewrite Herr.
Qed.

Lemma ensure_search_error_witness :
  ensure ansible_2_10 offline one_file from_file_at_hq (hq_store [])
  = (fail_json ("Could not get partition table: " +:+ "Connection refused"), hq_store [],
     [SearchPartitionTable {[ "name" := VStr (name from_file_at_hq) ]}]).
Proof.
  apply (ensure_search_error _ ansible_2_10 offline one_file from_file_at_hq (hq_store [])).
  reflexivity.
Defined.

(** When the file of the layout cannot be read, the search by name having
    gone through and the locations being found, the run fails there: the
    opening of the file is its last call, so it fetches, creates, updates and
    deletes nothing, and the store is left.  Its message is that of line 134
    when the exception has the attribute [message] the line reads: the path
    and that attribute behind [Could not open file ].  When the exception has
    none, as on Python 3, it is the [AttributeError] of the reading. *)
Theorem ensure_unreadable_file
    (W : Type) (module : AnsibleModule) (theforeman : Foreman W)
    (open_read : string -> read_result)
    (p : params) (w : W) (found : option dict) (path class_name : string)
    (message : option string) :
  truthy_str (layout p) = false ->
  template_file p = Some path ->
  path <> "" ->
  open_read path = IOError class_name message ->
  search_partition_table theforeman (named p) w = Ok found ->
  forallb (resolved theforeman w) (default [] (locations p)) = true ->
  ensure module theforeman open_read p w
  = (fail_json
       match message with
       | Some text => "Could not open file " +:+ path +:+ ": " +:+ text
       | None =>
           "AttributeError: '" +:+ class_name +:+ "' object has no attribute 'message'"
       end,
     w,
     SearchPartitionTable (named p) :: location_lookups (default [] (locations p))
       ++ [OpenFile path]).
Proof.
  intros Hl Ht Hpath Hopen Hs Hall. rewrite ensure_run, Hs. cbv zeta.
  rewrite (with_locations_resolved _ _ _ _ _ Hall), outcome_of_run, calls_of_run.
  assert (truthy_str (template_file p) = true) as Htt.
  { rewrite Ht. cbn. by apply negb_true_iff, String.eqb_neq. }
  unfold resolved_layout, layout_failure, layout_reads.
  rewrite Hl, Htt, Ht. cbn [from_option id negb andb Bool.eqb]. by rewrite Hopen.
Qed.

Lemma ensure_unreadable_file_witness :
  ensure ansible_2_10 Store.client no_file_py3 from_file_at_hq (hq_store [])
  = (fail_json "AttributeError: 'FileNotFoundError' object has no attribute 'message'",
     hq_store [],
     SearchPartitionTable (named from_file_at_hq)
       :: location_lookups (default [] (locations from_file_at_hq))
       ++ [OpenFile "/etc/ptable"]).
Proof.
  apply (ensure_unreadable_file _ ansible_2_10 Store.client no_file_py3 from_file_at_hq
           (hq_store []) None "/etc/ptable" "FileNotFoundError" None);
    try reflexivity.
  discriminate.
Defined.

(** ** The file of the layout *)

Lemma opened_app (t1 t2 : list call) : opened (t1 ++ t2) = opened t1 ++ opened t2.
Proof. apply flat_map_app. Qed.

Lemma opened_location_lookups (locs : list string) : opened (location_lookups locs) = [].
Proof. induction locs as [| loc locs IH]; [done | exact IH]. Qed.

Lemma opened_layout_reads (p : params) :
  opened (layout_reads p) = []
  \/ (truthy_str (layout p) = false
      /\ exists path, template_file p = Some path /\ path <> ""
                      /\ opened (layout_reads p) = [path]).
Proof.
  unfold layout_reads.
  destruct (truthy_str (layout p)); cbn [negb andb]; [by left|].
  destruct (template_file p) as [path |] eqn:Ht; cbn [truthy_str]; [| by left].
  destruct (String.eqb path "") eqn:Hp; cbn [negb]; [by left|].
  right. split; [done|]. exists path. repeat split. by apply String.eqb_neq.
Qed.

(** A run reads at most one file, and only the file [template_file], when
    that is given and not empty and [layout] is missing or empty.  With a
    literal layout it reads no file. *)
Theorem ensure_opens_template_only
    (W : Type) (module : AnsibleModule) (theforeman : Foreman W)
    (open_read : string -> read_result)
    (p : params) (w : W) :
  let files := opened (calls_of (ensure module theforeman open_read p w)) in
  files = []
  \/ (truthy_str (layout p) = false
      /\ exists path, template_file p = Some path /\ path <> "" /\ files = [path]).
Proof.
  intros files. subst files.
  assert (opened (calls_of (ensure module theforeman open_read p w)) = []
          \/ opened (calls_of (ensure module theforeman open_read p w)) = opened (layout_reads p))
    as [H | H].
  { run_cases module theforeman open_read p w;
      change (SearchPartitionTable (named p) :: ?l) with ([SearchPartitionTable (named p)] ++ l);
      rewrite ?opened_app, ?opened_location_lookups; cbn [opened flat_map app];
      rewrite ?app_nil_r; auto. }
  - by left.
  - rewrite H. apply opened_layout_reads.
Qed.

(** ** What a create or an update sends *)

Lemma with_locations_data
    (W : Type) (module : AnsibleModule) (theforeman : Foreman W) (p : params) (data data' : dict) (w : W) :
  outcome_of (with_locations module theforeman p data w) = Returned data' ->
  forallb (resolved theforeman w) (default [] (locations p)) = true
  /\ data' = if truthy_list (locations p)
             then <[ "location_ids" :=
                       VList (map (location_id theforeman w) (default [] (locations p))) ]>
                    data
             else data.
Proof.
  intros Hout. pose proof (with_locations_returned _ _ _ _ _ _ Hout) as Hall.
  split; [done|].
  rewrite (with_locations_resolved _ _ _ _ _ Hall), outcome_of_run in Hout.
  by injection Hout as <-.
Qed.

(** The payloads of a run are the payload of its descriptor. *)
Lemma ensure_payloads
    (W : Type) (module : AnsibleModule) (theforeman : Foreman W)
    (open_read : string -> read_result)
    (p : params) (w : W) :
  Forall (fun c => forall d, payload_of c = Some d ->
            exists L, resolved_layout open_read p = Some L
                      /\ forallb (resolved theforeman w) (default [] (locations p)) = true
                      /\ d = payload theforeman p w L)
    (calls_of (ensure module theforeman open_read p w)).
Proof.
  assert (forall c, is_mutation c = false ->
            forall d, payload_of c = Some d ->
              exists L, resolved_layout open_read p = Some L
                        /\ forallb (resolved theforeman w) (default [] (locations p)) = true
                        /\ d = payload theforeman p w L) as Hread
    by (by intros []).
  run_cases module theforeman open_read p w;
    calls_with Hread; try (by apply Hread);
    intros ? [= <-]; exists L;
    destruct (with_locations_data _ _ _ _ _ _ _ Hloc) as [Hall ->];
    (split; [done|]); (split; [done|]);
    unfold payload, named; by destruct (truthy_list (locations p)).
Qed.

Lemma payload_dom (W : Type) (theforeman : Foreman W) (p : params) (w : W) (L : string) :
  dom (payload theforeman p w L)
  ⊆ ({[ "name"; "layout"; "os_family"; "location_ids" ]} : gset string).
Proof.
  unfold payload. destruct (truthy_list (locations p));
    rewrite !dom_insert_L, dom_singleton_L; intros k;
    rewrite !elem_of_union, !elem_of_singleton; tauto.
Qed.

(** Every payload of a create or of an update has the name of the descriptor
    under [name] and the resolved layout under [layout], and no key but
    [name], [layout], [os_family] and [location_ids]: the module sends no id
    and none of its connection parameters. *)
Theorem ensure_payload_fields
    (W : Type) (module : AnsibleModule) (theforeman : Foreman W)
    (open_read : string -> read_result)
    (p : params) (w : W) :
  Forall (fun c => forall data, payload_of c = Some data ->
            data !! "name" = Some (VStr (name p))
            /\ (exists L, resolved_layout open_read p = Some L
                          /\ data !! "layout" = Some (VStr L))
            /\ dom data ⊆ ({[ "name"; "layout"; "os_family"; "location_ids" ]} : gset string))
    (calls_of (ensure module theforeman open_read p w)).
Proof.
  eapply Forall_impl; [apply ensure_payloads|]. cbv beta.
  intros c Hc data Hdata. destruct (Hc data Hdata) as (L & HL & _ & ->).
  split; [| split; [exists L; split; [done|] | apply payload_dom]].
  - pose proof (payload_name _ theforeman p w L) as H. unfold py_get in H.
    unfold payload in *. rewrite !lookup_insert_ne in * by done.
    destruct (truthy_list (locations p)).
    + by rewrite lookup_insert_ne, lookup_singleton_eq.
    + by rewrite lookup_singleton_eq.
  - unfold payload. by rewrite lookup_insert_ne, lookup_insert_eq.
Qed.

(** When locations are given, every payload of a create or of an update has
    under [location_ids] the list that [get_location_ids] returns for them:
    one id per location, in their order. *)
Theorem ensure_payload_location_ids
    (W : Type) (module : AnsibleModule) (theforeman : Foreman W)
    (open_read : string -> read_result)
    (p : params) (w : W) (loc : string) (locs : list string) :
  locations p = Some (loc :: locs) ->
  Forall (fun c => forall data, payload_of c = Some data ->
            exists ids : list value,
              outcome_of (get_location_ids module theforeman (loc :: locs) w) = Returned ids
              /\ length ids = S (length locs)
              /\ data !! "location_ids" = Some (VList ids))
    (calls_of (ensure module theforeman open_read p w)).
Proof.
  intros Hl. eapply Forall_impl; [apply ensure_payloads|]. cbv beta.
  intros c Hc data Hdata. destruct (Hc data Hdata) as (L & _ & Hall & ->).
  rewrite Hl in Hall. cbn [from_option id] in Hall.
  exists (map (location_id theforeman w) (loc :: locs)).
  unfold get_location_ids.
  rewrite (get_location_ids_from_resolved _ _ (loc :: locs) [] w Hall), outcome_of_run.
  split; [done|]. split; [by rewrite length_map|].
  unfold payload. rewrite Hl. cbn [truthy_list from_option id].
  rewrite 2!lookup_insert_ne by done. apply lookup_insert_eq.
Qed.

Lemma ensure_payload_location_ids_witness :
  Forall (fun c => forall data, payload_of c = Some data ->
            exists ids : list value,
              outcome_of (get_location_ids ansible_2_10 Store.client ("HQ" :: ["Lab"]) (lab_store []))
              = Returned ids
              /\ length ids = S (length ["Lab"])
              /\ data !! "location_ids" = Some (VList ids))
    (calls_of (ensure ansible_2_10 Store.client Store.no_file (freebsd_at ["HQ"; "Lab"]) (lab_store []))).
Proof.
  apply (ensure_payload_location_ids _ ansible_2_10 Store.client Store.no_file (freebsd_at ["HQ"; "Lab"])
           (lab_store []) "HQ" ["Lab"]).
  reflexivity.
Defined.

(** ** A literal layout *)

(** A present descriptor with a literal layout [L], for which the search by
    name finds a record that the fetch returns: when the layout fetched is [L]
    the run returns changed = false with the record fetched, issues no create,
    update or delete and leaves the store; when it is not, the update by the
    id of the record fetched is its one mutating call, and the run returns
    changed = true with the answer of the server, or fails with its error. *)
Theorem ensure_literal_layout
    (W : Type) (module : AnsibleModule) (theforeman : Foreman W)
    (open_read : string -> read_result)
    (p : params) (w : W) (found : option dict) (ptable : dict) (L : string) :
  state p = present ->
  layout p = Some L ->
  L <> "" ->
  truthy_str (template_file p) = false ->
  search_partition_table theforeman (named p) w = Ok found ->
  truthy_dict found = true ->
  forallb (resolved theforeman w) (default [] (locations p)) = true ->
  get_partition_table theforeman (py_get (default ∅ found) "id") w = Ok ptable ->
  let run := ensure module theforeman open_read p w in
  (py_get ptable "layout" = VStr L ->
   outcome_of run = Returned (false, Some ptable)
   /\ store_of run = w
   /\ mutations (calls_of run) = [])
  /\ (py_get ptable "layout" <> VStr L ->
      let data := payload theforeman p w L in
      let r := update_partition_table theforeman (py_get ptable "id") data w in
      outcome_of run = changed_or_fail "Could not update partition table: " r.1
      /\ store_of run = r.2
      /\ mutations (calls_of run) = [UpdatePartitionTable (py_get ptable "id") data]).
Proof.
  intros Hst Hl HL Ht Hs Hf Hall Hget run. subst run.
  assert (truthy_str (layout p) = true) as Htl.
  { rewrite Hl. cbn. by apply negb_true_iff, String.eqb_neq. }
  assert (resolved_layout open_read p = Some L) as Hres.
  { unfold resolved_layout. by rewrite Htl, Ht. }
  pose proof (ensure_present_existing _ module theforeman open_read p w found ptable L
                Hst Hs Hf Hall Hres Hget) as Hrun.
  cbv zeta in Hrun.
  pose proof (literal_layout_compared open_read p L (py_get ptable "layout") Htl Hres)
    as Hcmp.
  destruct (_ || _) eqn:Hsame; rewrite Hrun, ?outcome_of_run, ?store_of_run, ?calls_of_run;
    change (SearchPartitionTable (named p) :: ?l) with ([SearchPartitionTable (named p)] ++ l);
    rewrite ?mutations_app, ?mutations_location_lookups, ?mutations_layout_reads.
  - split; [done|]. intros Hne. exfalso. apply Hne. by apply Hcmp.
  - split; [| done]. intros Heq. apply Hcmp in Heq. discriminate.
Qed.

Lemma ensure_literal_layout_witness :
  let run := ensure ansible_2_10 Store.client Store.no_file freebsd (hq_store [stored "ufs"]) in
  (py_get (stored "ufs") "layout" = VStr "zfs on root" ->
   outcome_of run = Returned (false, Some (stored "ufs"))
   /\ store_of run = hq_store [stored "ufs"]
   /\ mutations (calls_of run) = [])
  /\ (py_get (stored "ufs") "layout" <> VStr "zfs on root" ->
      let data := payload Store.client freebsd (hq_store [stored "ufs"]) "zfs on root" in
      let r := update_partition_table Store.client (py_get (stored "ufs") "id") data
                 (hq_store [stored "ufs"]) in
      outcome_of run = changed_or_fail "Could not update partition table: " r.1
      /\ store_of run = r.2
      /\ mutations (calls_of run)
         = [UpdatePartitionTable (py_get (stored "ufs") "id") data]).
Proof.
  apply (ensure_literal_layout _ ansible_2_10 Store.client Store.no_file freebsd (hq_store [stored "ufs"])
           (Some (stored "ufs")) (stored "ufs") "zfs on root");
    try reflexivity.
  discriminate.
Defined.

(** ** When a call is issued *)

(** A create is issued only for a present descriptor for which the search by
    name found nothing; a delete only for an absent descriptor, by the id of
    the record the search found; a fetch only for a present descriptor, by the
    id of the record the search found; an update only for a present
    descriptor.  So a run never creates a record under a name the search
    found, and never deletes or updates what the descriptor did not ask for. *)
Theorem ensure_calls_justified
    (W : Type) (module : AnsibleModule) (theforeman : Foreman W)
    (open_read : string -> read_result)
    (p : params) (w : W) :
  Forall (fun c =>
            match c with
            | CreatePartitionTable _ =>
                state p = present
                /\ exists found, search_partition_table theforeman (named p) w = Ok found
                                 /\ truthy_dict found = false
            | DeletePartitionTable id =>
                state p = absent
                /\ exists found, search_partition_table theforeman (named p) w
                                 = Ok (Some found)
                                 /\ found <> ∅ /\ id = default VNone (found !! "id")
            | GetPartitionTable id =>
                state p = present
                /\ exists found, search_partition_table theforeman (named p) w
                                 = Ok (Some found)
                                 /\ found <> ∅ /\ id = default VNone (found !! "id")
            | UpdatePartitionTable _ _ => state p = present
            | _ => True
            end)
    (calls_of (ensure module theforeman open_read p w)).
Proof.
  assert (forall found : option dict,
             truthy_dict found = true ->
             exists d, found = Some d /\ d <> ∅) as Htruthy.
  { intros [d |] H; [| discriminate]. exists d. split; [done|].
    cbn in H. by apply negb_true_iff, bool_decide_eq_false in H. }
  set (P := fun c : call => match c with
                            | CreatePartitionTable _ => _ | _ => _ end).
  assert (forall c, is_lookup c = true \/ (exists path, c = OpenFile path) -> P c) as Hread.
  { intros c [Hc | [path ->]]; [by destruct c | done]. }
  assert (forall locs, Forall P (location_lookups locs)) as Hlook.
  { intros locs. induction locs; constructor; [by apply Hread; left | done]. }
  assert (Forall P (layout_reads p)) as Hfile.
  { unfold layout_reads. destruct (_ && _); repeat constructor. }
  run_cases module theforeman open_read p w;
    repeat first [ apply Forall_nil_2 | apply Forall_cons_2 | apply Forall_app_2
                 | apply Hlook | exact Hfile ];
    try done;
    try (destruct (Htruthy _ Hfound) as (d & -> & Hd); split; [done|];
         exists d; by repeat split).
  split; [done|]. by exists found.
Qed.

(** ** The store a run leaves *)

Lemma perform_reads (W : Type) (theforeman : Foreman W) (tr : list call) (w : W) :
  Forall (fun c => is_mutation c = false) tr ->
  fold_left (fun w c => perform theforeman c w) tr w = w.
Proof.
  induction 1 as [| c tr Hc _ IH]; [done|].
  cbn [fold_left]. by destruct c.
Qed.

Lemma perform_calls (W : Type) (theforeman : Foreman W) (d : dict) (locs : list string)
    (p : params) (acts : list call) (w : W) :
  fold_left (fun w c => perform theforeman c w)
    (SearchPartitionTable d :: location_lookups locs ++ layout_reads p ++ acts) w
  = fold_left (fun w c => perform theforeman c w) acts w.
Proof.
  cbn [fold_left perform]. rewrite !fold_left_app.
  by rewrite (perform_reads _ _ _ _ (reads_location_lookups locs)),
    (perform_reads _ _ _ _ (reads_layout_reads p)).
Qed.

(** The store a run leaves is the store its calls leave, one after the
    other from the store it started in: the lookups, the reading of the file
    and the fetch leave it, and the create, the update or the delete leaves
    what the client left, also when it raised; the module undoes nothing.  The
    outcome of a run with such a call is the answer of the client to it:
    changed = true with the record it gave, or the failure with its message
    behind the words of that call. *)
Theorem ensure_store_after_calls
    (W : Type) (module : AnsibleModule) (theforeman : Foreman W)
    (open_read : string -> read_result)
    (p : params) (w : W) :
  let run := ensure module theforeman open_read p w in
  store_of run = fold_left (fun w c => perform theforeman c w) (calls_of run) w
  /\ forall c, mutations (calls_of run) = [c] ->
       exists r, answer theforeman c w = Some r
                 /\ outcome_of run = changed_or_fail (prefix_of c) r.
Proof.
  intros run. subst run.
  run_cases module theforeman open_read p w;
    (split;
     [ first [ apply eq_sym, perform_calls
             | rewrite <- (app_nil_r (layout_reads p));
               apply eq_sym, (perform_calls _ _ _ _ _ [])
             | symmetry; apply perform_reads; constructor; [done|];
               apply reads_location_lookups
             | reflexivity ]
     | rewrite mutations_search, ?mutations_app, ?mutations_location_lookups,
         ?mutations_layout_reads; try discriminate ]).
  - change (mutations [GetPartitionTable ?i; UpdatePartitionTable ?j ?d])
      with [UpdatePartitionTable j d].
    intros c [= <-]. eexists. split; reflexivity.
  - change (mutations [DeletePartitionTable ?i]) with [DeletePartitionTable i].
    intros c [= <-]. eexists. split; reflexivity.
  - change (mutations [CreatePartitionTable ?d]) with [CreatePartitionTable d].
    intros c [= <-]. eexists. split; reflexivity.
Qed.

(** ** The entry point *)

Lemma ensure_changed_flag
    (W : Type) (module : AnsibleModule) (theforeman : Foreman W)
    (open_read : string -> read_result)
    (p : params) (w : W) (changed : bool) (r : option dict) :
  let run := ensure module theforeman open_read p w in
  outcome_of run = Returned (changed, r) ->
  if changed
  then exists c, is_mutation c = true /\ mutations (calls_of run) = [c]
  else mutations (calls_of run) = [] /\ store_of run = w.
Proof.
  assert (forall prefix a, changed_or_fail prefix a = Returned (changed, r) ->
                           changed = true) as Hmut.
  { intros prefix [d | message]; [by intros [= <- _] | discriminate]. }
  intros run. subst run.
  run_cases module theforeman open_read p w; intros H; try discriminate;
    rewrite mutations_search, ?mutations_app, ?mutations_location_lookups,
      ?mutations_layout_reads;
    try (injection H as <- <-; by split);
    rewrite (Hmut _ _ H); eexists; (split; [| reflexivity]); reflexivity.
Qed.

(** Without the client library [main] fails with the message that asks for
    it, whatever the parameters, before any call.  With it, [main] runs
    [ensure] on the client built from the connection parameters and ends as
    [ensure] does: it exits with the changed flag and the record [ensure]
    returns, or in the failure of [ensure] with its message, after the calls
    of [ensure] and on the store [ensure] leaves.  So it exits with changed =
    true only after exactly one create, update or delete, and with changed =
    false only when it issued none and left the store. *)
Theorem main_exit
    (W : Type) (module : AnsibleModule) (connect : connection -> Foreman W)
    (open_read : string -> read_result)
    (foremanclient_found : bool) (c : connection) (p : params) (w : W) :
  let run := main module connect open_read foremanclient_found c p w in
  let inner := ensure module (connect c) open_read p w in
  if foremanclient_found
  then
    run.1.1 = match outcome_of inner with
              | Returned (changed, ptable) => exit_json changed ptable
              | fail_json msg => exit_fail_json msg
              end
    /\ run.1.2 = store_of inner
    /\ run.2 = calls_of inner
    /\ match run.1.1 with
       | exit_json true ptable =>
           exists m, is_mutation m = true /\ mutations run.2 = [m]
       | exit_json false ptable => mutations run.2 = [] /\ run.1.2 = w
       | exit_fail_json msg => True
       end
  else
    run
    = (exit_fail_json
         "python-foreman module is required. See https://github.com/Nosmoht/python-foreman.",
       w, []).
Proof.
  intros run inner. subst run inner. unfold main.
  destruct foremanclient_found; cbn [negb]; [| reflexivity].
  pose proof (ensure_changed_flag _ module (connect c) open_read p w) as Hflag.
  cbv zeta in Hflag. unfold outcome_of, store_of, calls_of in *.
  destruct (ensure module (connect c) open_read p w) as [[o w'] tr]. cbn [fst snd] in *.
  destruct o as [[changed ptable] | msg]; cbn [fst snd]; [| done].
  do 3 (split; [done|]). specialize (Hflag changed ptable eq_refl). by destruct changed.
Qed.

(** ** Running twice on the reference store *)

Lemma ensure_twice_unchanged_witness :
  let s1 := store_of (ensure ansible_2_10 Store.client Store.no_file freebsd empty_store) in
  exists (r2 : option dict) (tr2 : list call),
    ensure ansible_2_10 Store.client Store.no_file freebsd s1 = (Returned (false, r2), s1, tr2)
    /\ (state freebsd = present ->
        exists (ptable : dict) (L : string),
          r2 = Some ptable
          /\ resolved_layout Store.no_file freebsd = Some L
          /\ (py_get ptable "layout" = VStr L
              \/ py_get ptable "layout" = of_param (layout freebsd))).
Proof.
  apply (ensure_twice_unchanged ansible_2_10 Store.no_file freebsd empty_store
           (store_of (ensure ansible_2_10 Store.client Store.no_file freebsd empty_store))
           (true, Some (<[ "id" := VInt 1 ]>
                          (payload Store.client freebsd empty_store "zfs on root")))
           (calls_of (ensure ansible_2_10 Store.client Store.no_file freebsd empty_store))).
  - split; constructor.
  - reflexivity.
Defined.
